(** * Session lifecycle of the user controller

    A shallow embedding of [src/controllers/user.controller.js]: the four
    request handlers [registerUser], [loginUser], [logoutUser],
    [refreshAccessToken] and the helper [generateAccessAndRefreshToken].

    JavaScript objects (documents of the [User] collection, response bodies,
    the object returned by the token helper) are association lists from
    property names to values, read with [lookup]; reading a property that is
    not there gives [undefined], as in JavaScript.  The [User] collection is
    a list of documents in insertion order.  Handlers run in a state and
    exception monad over the collection: a [throw] is a [Raise], an awaited
    call that rejects is a [Raise] as well, and a write made before a throw
    stays in the collection.

    What the file imports and does not define is taken as follows.
    - [asyncHandler] forwards what the wrapped function returns or throws;
      a handler here is the wrapped function.
    - [req.body] and [req.cookies] are objects of text fields, each absent
      or a string.
    - The model, the token library and the upload helper are collaborators
      ([Env]): each call may throw, and otherwise answers what the
      environment of the request says.
    - Mongoose removes the keys whose value is [undefined] from an update
      document before it sends it, so [$set: { refreshToken: undefined }]
      reaches the collection as an update that sets nothing.
    - [String.prototype.toLowerCase] is a built-in whose Unicode case
      mapping is not written out here: it is a function the environment
      gives, and nothing is proved from what it computes. *)

From Stdlib Require Import String Ascii List Bool Arith Lia.
Import ListNotations.
Open Scope string_scope.
Open Scope list_scope.

Set Implicit Arguments.
Set Warnings "-register-all".

(** ** JavaScript values *)

Inductive value : Type :=
| undefined
| null
| str (s : string)
| oid (n : nat)                       (* an ObjectId *)
| method (name : string)              (* a built-in method, e.g. String.prototype.trim *)
| obj (fields : list (string * value)).

Definition props : Type := list (string * value).

(** [o[k]] on the own properties of an object literal. *)
Fixpoint lookup (k : string) (o : props) : value :=
  match o with
  | [] => undefined
  | (k', v) :: rest => if String.eqb k k' then v else lookup k rest
  end.

Fixpoint has_own (k : string) (o : props) : bool :=
  match o with
  | [] => false
  | (k', _) :: rest => String.eqb k k' || has_own k rest
  end.

(** [o.k = v]: overwrite the property in place, or add it at the end. *)
Fixpoint set_prop (k : string) (v : value) (o : props) : props :=
  match o with
  | [] => [(k, v)]
  | (k', v') :: rest =>
      if String.eqb k k' then (k, v) :: rest else (k', v') :: set_prop k v rest
  end.

(** ToBoolean. *)
Definition truthy (v : value) : bool :=
  match v with
  | undefined | null => false
  | str s => negb (String.eqb s "")
  | _ => true
  end.

(** [a || b]. *)
Definition js_or (a b : value) : value := if truthy a then a else b.

(** [a === b]; objects and functions are compared by reference, and no two
    values built here share one. *)
Definition strict_eq (a b : value) : bool :=
  match a, b with
  | undefined, undefined => true
  | null, null => true
  | str x, str y => String.eqb x y
  | oid n, oid m => Nat.eqb n m
  | _, _ => false
  end.

(** [v?.k]: [undefined] on a nullish receiver; on a string the two methods
    of [String.prototype] that the controller names. *)
Definition opt_member (v : value) (k : string) : value :=
  match v with
  | obj o => lookup k o
  | str _ =>
      if String.eqb k "trim" || String.eqb k "toLowerCase" then method k
      else undefined
  | _ => undefined
  end.

Definition lower_ascii (c : ascii) : ascii :=
  let n := nat_of_ascii c in
  if ((65 <=? n) && (n <=? 90))%nat then ascii_of_nat (n + 32) else c.

(** What [toLowerCase] answers on a string of ASCII characters; the sample
    environments below use it for their ASCII usernames. *)
Fixpoint ascii_toLowerCase (s : string) : string :=
  match s with
  | EmptyString => EmptyString
  | String c rest => String (lower_ascii c) (ascii_toLowerCase rest)
  end.

(** ** Errors and the handler monad *)

Inductive exn : Type :=
| ApiError (statusCode : nat) (message : string)   (* new ApiError(code, message) *)
| Error (name : string) (message : string).        (* any other thrown Error *)

Definition exn_message (e : exn) : string :=
  match e with
  | ApiError _ m => m
  | Error _ m => m
  end.

Definition TypeError (m : string) : exn := Error "TypeError" m.

Inductive result (A : Type) : Type :=
| Ok (a : A)
| Raise (e : exn).
Arguments Raise {A} e.

Definition Store : Type := list props.

Definition M (A : Type) : Type := Store -> result A * Store.

Definition ret {A} (a : A) : M A := fun s => (Ok a, s).

Definition throw {A} (e : exn) : M A := fun s => (Raise e, s).

Definition bind {A B} (m : M A) (k : A -> M B) : M B :=
  fun s =>
    match m s with
    | (Ok a, s') => k a s'
    | (Raise e, s') => (Raise e, s')
    end.

(** [try { m } catch (error) { h error }]: the collection is not rolled
    back. *)
Definition try_catch {A} (m : M A) (h : exn -> M A) : M A :=
  fun s =>
    match m s with
    | (Ok a, s') => (Ok a, s')
    | (Raise e, s') => h e s'
    end.

Declare Scope handler_scope.
Delimit Scope handler_scope with handler.
Notation "x <- m ;; k" := (bind m (fun x => k))
  (at level 100, m at next level, right associativity) : handler_scope.
Notation "m ;;; k" := (bind m (fun _ => k))
  (at level 100, right associativity) : handler_scope.
Open Scope handler_scope.

(** ** The User collection *)

Definition id_is (id : value) (d : props) : bool := strict_eq (lookup "_id" d) id.

(** [User.findById(id)]: the document or [None] for [null]. *)
Definition Store_findById (id : value) (s : Store) : option props :=
  find (id_is id) s.

(** One clause [{ k: q }] of a filter.  The collection stores strings in
    these fields, so a clause whose value is not a string matches nothing. *)
Definition clause (k : string) (q : value) (d : props) : bool :=
  match q with
  | str _ => strict_eq (lookup k d) q
  | _ => false
  end.

(** [User.findOne({ $or: [{ username }, { email }] })]. *)
Definition Store_findOne_or (username email : value) (s : Store) : option props :=
  find (fun d => clause "username" username d || clause "email" email d) s.

Fixpoint max_id (s : Store) : nat :=
  match s with
  | [] => 0
  | d :: rest =>
      match lookup "_id" d with
      | oid n => Nat.max n (max_id rest)
      | _ => max_id rest
      end
  end.

(** The identifier given to a new document: one the collection does not
    hold. *)
Definition fresh_id (s : Store) : value := oid (S (max_id s)).

(** Apply [f] to the first document selected by [p]. *)
Fixpoint update_first (p : props -> bool) (f : props -> props) (s : Store) : Store :=
  match s with
  | [] => []
  | d :: rest => if p d then f d :: rest else d :: update_first p f rest
  end.

(** [user.save()]: write the document back under its [_id]. *)
Definition Store_save (d : props) (s : Store) : Store :=
  update_first (id_is (lookup "_id" d)) (fun _ => d) s.

(** [User.findByIdAndUpdate(id, { $set: { k: v } })].  A key whose value is
    [undefined] is removed from the update before it is sent, and an update
    left with nothing to set writes nothing; any other value is set on the
    first record with that identifier. *)
Definition Store_findByIdAndUpdate_set (id : value) (k : string) (v : value)
    (s : Store) : Store :=
  match v with
  | undefined => s
  | _ => update_first (id_is id) (set_prop k v) s
  end.

(** [.select("-a -b")]: the projection that leaves the named fields out. *)
Definition select_minus (excluded : list string) (d : props) : props :=
  filter (fun kv => negb (existsb (String.eqb (fst kv)) excluded)) d.

(** ** Requests and responses *)

Record File : Type := { path : string }.

Record Request : Type := {
  body : list (string * string);               (* req.body: text fields *)
  cookies : list (string * string);            (* req.cookies *)
  files : option (list (string * list File));  (* req.files: absent, or field name -> files *)
  user : props                                 (* req.user, set by the auth middleware *)
}.

Fixpoint assoc {A} (k : string) (l : list (string * A)) : option A :=
  match l with
  | [] => None
  | (k', a) :: rest => if String.eqb k k' then Some a else assoc k rest
  end.

(** [o.k] for an object of text fields. *)
Definition text_field (k : string) (o : list (string * string)) : value :=
  match assoc k o with
  | Some s => str s
  | None => undefined
  end.

Record CookieOptions : Type := { httpOnly : bool; secure : bool }.

(** Modelled from the spec: the success envelope built by [ApiResponse]
    (utils/ApiResponse.js is not in the sources); it wraps the status code,
    the data and the message it is constructed with. *)
Record ApiResponse : Type := {
  statusCode : nat;
  data : value;
  message : string
}.

Record Response : Type := {
  status : nat;                                         (* res.status(n) *)
  cookies_set : list (string * value * CookieOptions);  (* res.cookie(name, value, options) *)
  cookies_cleared : list (string * CookieOptions);      (* res.clearCookie(name, options) *)
  json : ApiResponse                                    (* res.json(body) *)
}.

(** ** Collaborators outside this file *)

(** The calls that may reject or throw, named by the line of the controller
    that makes them. *)
Inductive Site : Type :=
| L10_findById | L11_generateAccessToken | L12_generateRefreshToken | L15_save
| L45_findOne | L60_uploadOnCloudinary | L61_uploadOnCloudinary
| L67_create | L77_findById
| L110_findOne | L118_isPasswordCorrect | L127_findById
| L153_findByIdAndUpdate
| L191_verify | L193_findById.

(** What the collaborators answer during one request. *)
Record Env : Type := {
  throws : Site -> option string;          (* Some m: the call throws an Error with message m *)
  uploadOnCloudinary : value -> value;     (* local path -> upload response or null *)
  hashPassword : string -> string;         (* the pre-save hook of the model *)
  toLowerCase : string -> string;          (* String.prototype.toLowerCase *)
  isPasswordCorrect : props -> value -> bool;   (* user.isPasswordCorrect(password) *)
  generateAccessToken : props -> string;   (* user.generateAccessToken() *)
  generateRefreshToken : props -> string;  (* user.generateRefreshToken() *)
  jwt_verify : value -> value              (* jwt.verify(token, REFRESH_TOKEN_SECRET): the payload *)
}.

(** ** The controller *)

Section Controller.

Variable env : Env.

(** A call to a collaborator at [site]: it throws when the collaborator
    does, before anything is written. *)
Definition call {A} (site : Site) (m : M A) : M A :=
  fun s =>
    match throws env site with
    | Some msg => (Raise (Error "Error" msg), s)
    | None => m s
    end.

Definition findById (site : Site) (id : value) : M (option props) :=
  call site (fun s => (Ok (Store_findById id s), s)).

Definition findOne_or (site : Site) (username email : value) : M (option props) :=
  call site (fun s => (Ok (Store_findOne_or username email s), s)).

(** [User.create(fields)]: the new document gets its [_id], and the model's
    pre-save hook replaces the password by its hash. *)
Definition create (site : Site) (fields : props) : M props :=
  call site (fun s =>
    let hashed :=
      match lookup "password" fields with
      | str p => set_prop "password" (str (hashPassword env p)) fields
      | _ => fields
      end in
    let d := ("_id", fresh_id s) :: hashed in
    (Ok d, s ++ [d])).

Definition options : CookieOptions := {| httpOnly := true; secure := true |}.

(** Lines 8-21. *)
Definition generateAccessAndRefreshToken (userId : value) : M props :=
  try_catch
    (user <- findById L10_findById userId ;;
     match user with
     | None =>
         throw (TypeError "Cannot read properties of null (reading 'generateAccessToken')")
     | Some user =>
         accessToken <- call L11_generateAccessToken (ret (generateAccessToken env user)) ;;
         refreshToken <- call L12_generateRefreshToken (ret (generateRefreshToken env user)) ;;
         let user := set_prop "refreshToken" (str refreshToken) user in
         call L15_save (fun s => (Ok tt, Store_save user s)) ;;;
         ret [("accessToken", str accessToken); ("refreshToken", str refreshToken)]
     end)
    (fun _ =>
       throw (ApiError 500 "Something went wrong while generating refresh and access token")).

(** [arr[0]?.path] *)
Definition first_path (arr : list File) : value :=
  match arr with
  | [] => undefined
  | f :: _ => str (path f)
  end.

(** Line 53: [req.files?.avatar[0]?.path]. *)
Definition avatarLocalPath_of (req : Request) : M value :=
  match files req with
  | None => ret undefined
  | Some fs =>
      match assoc "avatar" fs with
      | None => throw (TypeError "Cannot read properties of undefined (reading '0')")
      | Some arr => ret (first_path arr)
      end
  end.

(** Line 54: [req.files?.coverImage?.[0]?.path]. *)
Definition coverImageLocalPath_of (req : Request) : value :=
  match files req with
  | None => undefined
  | Some fs =>
      match assoc "coverImage" fs with
      | None => undefined
      | Some arr => first_path arr
      end
  end.

(** Line 73: [username.toLowerCase()]. *)
Definition call_toLowerCase (username : value) : M value :=
  match username with
  | str u => ret (str (toLowerCase env u))
  | _ => throw (TypeError "Cannot read properties of undefined (reading 'toLowerCase')")
  end.

(** Lines 23-90. *)
Definition registerUser (req : Request) : M Response :=
  let fullName := text_field "fullName" (body req) in
  let email := text_field "email" (body req) in
  let password := text_field "password" (body req) in
  let username := text_field "username" (body req) in
  if existsb (fun field => strict_eq (opt_member field "trim") (str ""))
       [fullName; email; password; username]
  then throw (ApiError 400 "All fields are required")
  else
    existedUser <- findOne_or L45_findOne username email ;;
    match existedUser with
    | Some _ => throw (ApiError 409 "User already exists")
    | None =>
        avatarLocalPath <- avatarLocalPath_of req ;;
        let coverImageLocalPath := coverImageLocalPath_of req in
        if negb (truthy avatarLocalPath)
        then throw (ApiError 400 "Avatar file is required")
        else
          avatar <- call L60_uploadOnCloudinary
                      (ret (uploadOnCloudinary env avatarLocalPath)) ;;
          coverImage <- call L61_uploadOnCloudinary
                          (ret (uploadOnCloudinary env coverImageLocalPath)) ;;
          if negb (truthy avatar)
          then throw (ApiError 400 "Avatar file is required")
          else
            lowered <- call_toLowerCase username ;;
            user <- create L67_create
                      [("fullName", fullName);
                       ("avatar", opt_member avatar "url");   (* avatar is truthy here *)
                       ("coverImage", js_or (opt_member coverImage "url") (str ""));
                       ("email", email);
                       ("password", password);
                       ("username", lowered)] ;;
            createdUser <- findById L77_findById (lookup "_id" user) ;;
            match option_map (select_minus ["password"; "refreshToken"]) createdUser with
            | None =>
                throw (ApiError 500 "Something went wrong while registering the user")
            | Some createdUser =>
                ret {| status := 201;
                       cookies_set := [];
                       cookies_cleared := [];
                       json := {| statusCode := 200;
                                  data := obj createdUser;
                                  message := "🟢User registered Successfully !!" |} |}
            end
    end.

Definition or_null (d : option props) : value :=
  match d with
  | Some d => obj d
  | None => null
  end.

(** Lines 92-150. *)
Definition loginUser (req : Request) : M Response :=
  let username := text_field "username" (body req) in
  let email := text_field "email" (body req) in
  let password := text_field "password" (body req) in
  if negb (truthy (js_or username email))
  then throw (ApiError 400 "username or email is required")
  else
    user <- findOne_or L110_findOne username email ;;
    match user with
    | None => throw (ApiError 404 "User does not exist")
    | Some user =>
        isPasswordValid <- call L118_isPasswordCorrect
                             (ret (isPasswordCorrect env user password)) ;;
        if negb isPasswordValid
        then throw (ApiError 404 "Invalid user credentials")
        else
          tokens <- generateAccessAndRefreshToken (lookup "_id" user) ;;
          let refreshToken := lookup "refreshToken" tokens in
          let accessToken := lookup "accessToken" tokens in
          loggedInUser <- findById L127_findById (lookup "_id" user) ;;
          let loggedInUser :=
            option_map (select_minus ["password"; "refreshToken"]) loggedInUser in
          ret {| status := 200;
                 cookies_set := [("refreshToken", refreshToken, options);
                                 ("accessToken", accessToken, options)];
                 cookies_cleared := [];
                 json := {| statusCode := 200;
                            data := obj [("user", or_null loggedInUser);
                                         ("accessToken", accessToken);
                                         ("refreshToken", refreshToken)];
                            message := "User logged in Successfully!!" |} |}
    end.

(** Lines 152-181. *)
Definition logoutUser (req : Request) : M Response :=
  call L153_findByIdAndUpdate
    (fun s => (Ok tt,
               Store_findByIdAndUpdate_set (lookup "_id" (user req))
                 "refreshToken" undefined s)) ;;;
  ret {| status := 200;
         cookies_set := [];
         cookies_cleared := [("accessToken", options); ("refreshToken", options)];
         json := {| statusCode := 200;
                    data := obj [];
                    message := "User logged out" |} |}.

(** Line 184: [req.cookies.refreshToken || req.body.refreshToken]. *)
Definition incomingRefreshToken_of (req : Request) : value :=
  js_or (text_field "refreshToken" (cookies req))
        (text_field "refreshToken" (body req)).

(** Lines 183-227. *)
Definition refreshAccessToken (req : Request) : M Response :=
  let incomingRefreshToken := incomingRefreshToken_of req in
  if negb (truthy incomingRefreshToken)
  then throw (ApiError 401 "Unauthorized Request!!")
  else
    try_catch
      (decodedToken <- call L191_verify (ret (jwt_verify env incomingRefreshToken)) ;;
       user <- findById L193_findById (opt_member decodedToken "_id") ;;
       match user with
       | None => throw (ApiError 401 "Invalid RefreshToken")
       | Some user =>
           if negb (strict_eq incomingRefreshToken (lookup "refreshToken" user))
           then throw (ApiError 401 "Refresh token is expired or used")
           else
             tokens <- generateAccessAndRefreshToken (lookup "_id" user) ;;
             let accessToken := lookup "accessToken" tokens in
             let newRefreshToken := lookup "newRefreshToken" tokens in
             ret {| status := 200;
                    cookies_set := [("accessToken", accessToken, options);
                                    ("refreshToken", newRefreshToken, options)];
                    cookies_cleared := [];
                    json := {| statusCode := 200;
                               data := obj [("accessToken", accessToken);
                                            ("refreshToken", newRefreshToken)];
                               message := "Access token refreshed" |} |}
       end)
      (fun error =>
         throw (ApiError 401
                  (if String.eqb (exn_message error) "" then "Invalid refresh token"
                   else exn_message error))).

End Controller.

(** ** Sample data: one registered user and the requests of a session *)

Definition alice : props :=
  [("_id", oid 1);
   ("fullName", str "Alice");
   ("avatar", str "https://cdn.example/alice.png");
   ("coverImage", str "");
   ("email", str "alice@x.com");
   ("password", str "#pw123");
   ("username", str "alice");
   ("refreshToken", str "rt0")].

Definition store0 : Store := [alice].

(** Collaborators that all answer; the token methods mint [at] and [rt],
    and every token verifies to alice's identifier. *)
Definition answering (at_ rt : string) : Env :=
  {| throws := fun _ => None;
     uploadOnCloudinary :=
       fun p => if truthy p then obj [("url", str "https://cdn.example/up.png")] else null;
     hashPassword := fun p => String "#" p;
     toLowerCase := ascii_toLowerCase;
     isPasswordCorrect :=
       fun u pw =>
         match pw with
         | str p => strict_eq (lookup "password" u) (str (String "#" p))
         | _ => false
         end;
     generateAccessToken := fun _ => at_;
     generateRefreshToken := fun _ => rt;
     jwt_verify := fun _ => obj [("_id", oid 1)] |}.

(** The same collaborators, with the call at one site throwing. *)
Definition failing_at (site : Site -> bool) (msg : string) (e : Env) : Env :=
  {| throws := fun x => if site x then Some msg else throws e x;
     uploadOnCloudinary := uploadOnCloudinary e;
     hashPassword := hashPassword e;
     toLowerCase := toLowerCase e;
     isPasswordCorrect := isPasswordCorrect e;
     generateAccessToken := generateAccessToken e;
     generateRefreshToken := generateRefreshToken e;
     jwt_verify := jwt_verify e |}.

Definition is_L77 (x : Site) : bool :=
  match x with L77_findById => true | _ => false end.

Definition is_L12 (x : Site) : bool :=
  match x with L12_generateRefreshToken => true | _ => false end.

(** A Refresh request that presents [t] in its cookie. *)
Definition presenting (t : string) : Request :=
  {| body := []; cookies := [("refreshToken", t)]; files := None; user := [] |}.

(** The refresh token a response body carries. *)
Definition body_refreshToken (r : Response) : value :=
  opt_member (data (json r)) "refreshToken".

Definition cookie_value (name : string) (r : Response) : value :=
  match find (fun c => String.eqb name (fst (fst c))) (cookies_set r) with
  | Some c => snd (fst c)
  | None => undefined
  end.

(** Logout requested by the identity [u] the middleware attached. *)
Definition logout_of (u : props) : Request :=
  {| body := []; cookies := []; files := None; user := u |}.

Definition login_with (fields : list (string * string)) : Request :=
  {| body := fields; cookies := []; files := None; user := [] |}.

Definition register_with (fields : list (string * string))
    (fs : option (list (string * list File))) : Request :=
  {| body := fields; cookies := []; files := fs; user := [] |}.

Definition bob_fields : list (string * string) :=
  [("fullName", "Bob"); ("email", "bob@x.com"); ("password", "pw456"); ("username", "Bob")].

Definition avatar_upload : option (list (string * list File)) :=
  Some [("avatar", [ {| path := "public/temp/bob.png" |} ])].

(** The stored refresh token of the identity [id]. *)
Definition stored_refreshToken (id : value) (s : Store) : value :=
  match Store_findById id s with
  | Some d => lookup "refreshToken" d
  | None => undefined
  end.

(** ** What the token helper answers and writes *)

(** The object the helper returns for the user document [u]. *)
Definition minted (env : Env) (u : props) : props :=
  [("accessToken", str (generateAccessToken env u));
   ("refreshToken", str (generateRefreshToken env u))].

(** The collection after the helper has saved [u] with its new token. *)
Definition rotated (env : Env) (u : props) (s : Store) : Store :=
  Store_save (set_prop "refreshToken" (str (generateRefreshToken env u)) u) s.

Definition generate_failed : exn :=
  ApiError 500 "Something went wrong while generating refresh and access token".

(** The response of a successful Refresh, as lines 210-220 build it from
    the helper's answer [tokens]. *)
Definition refresh_response (tokens : props) : Response :=
  {| status := 200;
     cookies_set := [("accessToken", lookup "accessToken" tokens, options);
                     ("refreshToken", lookup "newRefreshToken" tokens, options)];
     cookies_cleared := [];
     json := {| statusCode := 200;
                data := obj [("accessToken", lookup "accessToken" tokens);
                             ("refreshToken", lookup "newRefreshToken" tokens)];
                message := "Access token refreshed" |} |}.

Definition answers (env : Env) : Prop := forall site, throws env site = None.

(** The response of a successful Register for the created document [d]. *)
Definition register_response (d : props) : Response :=
  {| status := 201;
     cookies_set := [];
     cookies_cleared := [];
     json := {| statusCode := 200;
                data := obj (select_minus ["password"; "refreshToken"] d);
                message := "🟢User registered Successfully !!" |} |}.

(** The response of a successful Login, built by lines 135-149 from the
    helper's answer and the re-fetched user. *)
Definition login_response (tokens : props) (loggedInUser : option props) : Response :=
  {| status := 200;
     cookies_set := [("refreshToken", lookup "refreshToken" tokens, options);
                     ("accessToken", lookup "accessToken" tokens, options)];
     cookies_cleared := [];
     json := {| statusCode := 200;
                data := obj [("user", or_null loggedInUser);
                             ("accessToken", lookup "accessToken" tokens);
                             ("refreshToken", lookup "refreshToken" tokens)];
                message := "User logged in Successfully!!" |} |}.

(** The document Register creates for [bob_fields] in [store0]. *)
Definition bob : props :=
  [("_id", oid 2);
   ("fullName", str "Bob");
   ("avatar", str "https://cdn.example/up.png");
   ("coverImage", str "");
   ("email", str "bob@x.com");
   ("password", str "#pw456");
   ("username", str "bob")].

(** The four operations of the controller. *)
Inductive Operation : Type := Register | Login | Refresh | Logout.

Definition run (op : Operation) : Env -> Request -> M Response :=
  match op with
  | Register => registerUser
  | Login => loginUser
  | Refresh => refreshAccessToken
  | Logout => logoutUser
  end.

(** The call an operation makes after its write to read the record back:
    line 77 in Register, line 127 in Login. *)
Definition refetch_site (op : Operation) : option Site :=
  match op with
  | Register => Some L77_findById
  | Login => Some L127_findById
  | Refresh | Logout => None
  end.

(** The identity a Refresh request claims: the [_id] of the payload its
    token verifies to. *)
Definition claimed_id (env : Env) (req : Request) : value :=
  opt_member (jwt_verify env (incomingRefreshToken_of req)) "_id".

(** The refresh token the helper mints for the identity [id] when it runs
    on the collection [s]: what [generateRefreshToken] answers for the
    record found there. *)
Definition minted_for (env : Env) (id : value) (s : Store) : value :=
  match Store_findById id s with
  | Some u => str (generateRefreshToken env u)
  | None => undefined
  end.

(** alice's record after a Refresh stored the token [t]. *)
Definition alice_holding (t : string) : props :=
  set_prop "refreshToken" (str t) alice.

(** The response lines 170-180 build. *)
Definition logout_response : Response :=
  {| status := 200;
     cookies_set := [];
     cookies_cleared := [("accessToken", options); ("refreshToken", options)];
     json := {| statusCode := 200; data := obj []; message := "User logged out" |} |}.

(** ** Views of the collection used by the coverage properties *)

(** The identifiers of the records, in order. *)
Definition ids (s : Store) : list value := map (lookup "_id") s.

(** Field [k] of the record of identity [id]; [undefined] without one. *)
Definition field_of (k : string) (id : value) (s : Store) : value :=
  match Store_findById id s with
  | Some d => lookup k d
  | None => undefined
  end.

(** The identity whose record an operation may write: the new record's in
    Register, the found user's in Login, the one the token claims in
    Refresh, [req.user._id] in Logout. *)
Definition touched_id (op : Operation) (env : Env) (req : Request) (s : Store) : value :=
  match op with
  | Register => fresh_id s
  | Login =>
      match Store_findOne_or (text_field "username" (body req))
              (text_field "email" (body req)) s with
      | Some u => lookup "_id" u
      | None => undefined
      end
  | Refresh => claimed_id env req
  | Logout => lookup "_id" (user req)
  end.

(** The status codes of the [ApiError]s each handler constructs. *)
Definition api_statuses (op : Operation) : list nat :=
  match op with
  | Register => [400; 409; 500]
  | Login => [400; 404; 500]
  | Refresh => [401]
  | Logout => []
  end.

(** bob with a session of his own, and a collection of two users. *)
Definition bob_in_session : props := set_prop "refreshToken" (str "rtB") bob.

Definition store_ab : Store := [alice; bob_in_session].

(** A Refresh request that presents [c] in its cookie and [b] in its body. *)
Definition presenting_both (c b : string) : Request :=
  {| body := [("refreshToken", b)]; cookies := [("refreshToken", c)];
     files := None; user := [] |}.

Definition is_L191 (x : Site) : bool :=
  match x with L191_verify => true | _ => false end.

(** A cookie option set that protects the cookie. *)
Definition guarded (o : CookieOptions) : Prop :=
  httpOnly o = true /\ secure o = true.

(** The request [req] with its body emptied. *)
Definition without_body (req : Request) : Request :=
  {| body := []; cookies := cookies req; files := files req; user := user req |}.

Ltac inv H := inversion H; subst; clear H.

(** * Properties *)

(** ** Values, objects and the collection *)

Lemma strict_eq_true (a b : value) : strict_eq a b = true -> a = b.
Proof.
  destruct a, b; simpl; try discriminate; intros H; try reflexivity.
  - apply String.eqb_eq in H. now subst.
  - apply Nat.eqb_eq in H. now subst.
Qed.

Lemma lookup_set_prop_same (k : string) (v : value) (o : props) :
  lookup k (set_prop k v o) = v.
Proof.
  induction o as [|[k' v'] o IH]; simpl.
  - now rewrite String.eqb_refl.
  - destruct (String.eqb k k') eqn:E; simpl; rewrite ?String.eqb_refl, ?E; auto.
Qed.

Lemma lookup_set_prop_other (k k' : string) (v : value) (o : props) :
  String.eqb k k' = false -> lookup k (set_prop k' v o) = lookup k o.
Proof.
  intros Hk. induction o as [|[k0 v0] o IH]; simpl.
  - now rewrite Hk.
  - destruct (String.eqb k' k0) eqn:E; simpl.
    + apply String.eqb_eq in E. subst k0. now rewrite Hk.
    + now rewrite IH.
Qed.

Lemma has_own_filter_out (k : string) (excluded : list string) (d : props) :
  In k excluded -> has_own k (select_minus excluded d) = false.
Proof.
  intros Hin. induction d as [|[k' v] d IH]; simpl; [reflexivity|].
  destruct (existsb (String.eqb k') excluded) eqn:E; simpl; [exact IH|].
  rewrite IH, orb_false_r.
  destruct (String.eqb k k') eqn:Ek; [|reflexivity].
  apply String.eqb_eq in Ek. subst k'.
  assert (existsb (String.eqb k) excluded = true) as Hex.
  { apply existsb_exists. exists k. split; [assumption | apply String.eqb_refl]. }
  congruence.
Qed.

Lemma find_update_first (p : props -> bool) (f : props -> props) (s : Store) :
  (forall d, p d = true -> p (f d) = true) ->
  find p (update_first p f s) = option_map f (find p s).
Proof.
  intros Hp. induction s as [|d s IH]; simpl; [reflexivity|].
  destruct (p d) eqn:E; simpl.
  - now rewrite (Hp d E).
  - now rewrite E.
Qed.

Lemma findById_id (id : value) (s : Store) (d : props) :
  Store_findById id s = Some d -> lookup "_id" d = id.
Proof.
  unfold Store_findById. intros H. apply find_some in H as [_ H].
  now apply strict_eq_true.
Qed.

Lemma max_id_bound (s : Store) (d : props) (n : nat) :
  In d s -> lookup "_id" d = oid n -> n <= max_id s.
Proof.
  induction s as [|d0 s IH]; simpl; [contradiction|].
  intros [->|Hin] Hn.
  - rewrite Hn. lia.
  - specialize (IH Hin Hn). destruct (lookup "_id" d0); lia.
Qed.

Lemma find_fresh_none (s : Store) : find (id_is (fresh_id s)) s = None.
Proof.
  destruct (find (id_is (fresh_id s)) s) as [d|] eqn:E; [|reflexivity].
  apply find_some in E as [Hin Hid].
  apply strict_eq_true in Hid. unfold fresh_id in Hid.
  pose proof (max_id_bound s d Hin Hid). lia.
Qed.

Lemma find_app_none {A} (p : A -> bool) (l1 l2 : list A) :
  find p l1 = None -> find p (l1 ++ l2) = find p l2.
Proof.
  induction l1 as [|a l1 IH]; simpl; [reflexivity|].
  destruct (p a); [discriminate | exact IH].
Qed.

(** The document just created is the one its identifier finds. *)
Lemma findById_created (s : Store) (fields : props) :
  Store_findById (fresh_id s) (s ++ [("_id", fresh_id s) :: fields])
  = Some (("_id", fresh_id s) :: fields).
Proof.
  unfold Store_findById. rewrite find_app_none by apply find_fresh_none.
  simpl. unfold id_is. simpl. now rewrite Nat.eqb_refl.
Qed.

(** ** The token helper *)

(** The helper either answers with a pair it has persisted, or raises its
    500 error and writes nothing. *)
Lemma generate_cases (env : Env) (id : value) (s : Store) :
  (exists u, Store_findById id s = Some u /\
             generateAccessAndRefreshToken env id s = (Ok (minted env u), rotated env u s))
  \/ generateAccessAndRefreshToken env id s = (Raise generate_failed, s).
Proof.
  unfold generateAccessAndRefreshToken, try_catch, findById, call, bind, throw, ret.
  destruct (throws env L10_findById); [now right|].
  destruct (Store_findById id s) as [u|] eqn:Hu; [|now right].
  destruct (throws env L11_generateAccessToken); [now right|].
  destruct (throws env L12_generateRefreshToken); [now right|].
  destruct (throws env L15_save); [now right|].
  left. exists u. split; reflexivity.
Qed.

(** ** Refresh *)

Lemma text_field_shape (k : string) (o : list (string * string)) :
  text_field k o = undefined \/ exists t, text_field k o = str t.
Proof. unfold text_field. destruct (assoc k o); eauto. Qed.

(** A token that passes the presence test of line 186 is a non-empty
    string. *)
Lemma incoming_truthy_str (req : Request) :
  truthy (incomingRefreshToken_of req) = true ->
  exists t, incomingRefreshToken_of req = str t /\ t <> "".
Proof.
  unfold incomingRefreshToken_of, js_or.
  destruct (text_field_shape "refreshToken" (cookies req)) as [Hc|[c Hc]];
    destruct (text_field_shape "refreshToken" (body req)) as [Hb|[b Hb]];
    rewrite Hc, ?Hb; simpl; try discriminate.
  - intros H. exists b. split; [reflexivity|].
    intros ->. discriminate.
  - destruct (String.eqb c "") eqn:E; simpl; rewrite ?Hb; simpl; try discriminate.
    intros _. exists c. split; [reflexivity|]. intros ->. discriminate.
  - destruct (String.eqb c "") eqn:E; simpl; rewrite ?Hb; simpl.
    + intros H. exists b. split; [reflexivity|]. intros ->. discriminate.
    + intros _. exists c. split; [reflexivity|]. intros ->. discriminate.
Qed.

(** A Refresh that fails fails as a 401 and writes nothing. *)
Lemma refresh_raise (env : Env) (req : Request) (s s' : Store) (e : exn) :
  refreshAccessToken env req s = (Raise e, s') ->
  s' = s /\ exists msg, e = ApiError 401 msg.
Proof.
  unfold refreshAccessToken.
  destruct (truthy (incomingRefreshToken_of req)); simpl.
  2:{ unfold throw. intros H. inv H. eauto. }
  unfold try_catch, bind, findById, call, throw, ret.
  destruct (throws env L191_verify); [intros H; inv H; eauto|].
  destruct (throws env L193_findById); [intros H; inv H; eauto|].
  destruct (Store_findById _ s) as [u|]; [|intros H; inv H; eauto].
  destruct (strict_eq _ _); simpl; [|intros H; inv H; eauto].
  destruct (generate_cases env (lookup "_id" u) s) as [[u' [_ Hg]]|Hg];
    rewrite Hg; intros H; inv H; eauto.
Qed.

(** A Refresh that succeeds presented the stored token of the identity its
    payload names, rotated that identity's token, and answered with
    [refresh_response]. *)
Lemma refresh_ok (env : Env) (req : Request) (s s' : Store) (r : Response) :
  refreshAccessToken env req s = (Ok r, s') ->
  exists u,
    truthy (incomingRefreshToken_of req) = true /\
    Store_findById (claimed_id env req) s = Some u /\
    lookup "refreshToken" u = incomingRefreshToken_of req /\
    s' = rotated env u s /\
    r = refresh_response (minted env u).
Proof.
  unfold refreshAccessToken.
  destruct (truthy (incomingRefreshToken_of req)) eqn:Ht; simpl.
  2:{ unfold throw. discriminate. }
  unfold try_catch, bind, findById, call, throw, ret.
  destruct (throws env L191_verify); [discriminate|].
  destruct (throws env L193_findById); [discriminate|].
  destruct (Store_findById _ s) as [u|] eqn:Hu; [|discriminate].
  destruct (strict_eq _ _) eqn:Heq; simpl; [|discriminate].
  pose proof (findById_id _ _ Hu) as Hid.
  destruct (generate_cases env (lookup "_id" u) s) as [[u' [Hf Hg]]|Hg];
    rewrite Hg; [|discriminate].
  rewrite Hid, Hu in Hf. inv Hf.
  intros H. inv H. exists u'. repeat split; auto.
  symmetry. now apply strict_eq_true.
Qed.

(** When the collaborators answer and the presented token is the stored
    one, Refresh returns. *)
Lemma refresh_succeeds (env : Env) (req : Request) (s : Store) (u : props) :
  answers env ->
  truthy (incomingRefreshToken_of req) = true ->
  Store_findById (claimed_id env req) s = Some u ->
  lookup "refreshToken" u = incomingRefreshToken_of req ->
  refreshAccessToken env req s = (Ok (refresh_response (minted env u)), rotated env u s).
Proof.
  intros Hans Ht Hu Htok. unfold claimed_id in Hu.
  unfold refreshAccessToken. rewrite Ht. simpl.
  unfold try_catch, bind, findById, call, throw, ret.
  rewrite !Hans, Hu, Htok.
  assert (strict_eq (incomingRefreshToken_of req) (incomingRefreshToken_of req) = true)
    as ->.
  { destruct (incoming_truthy_str req Ht) as [t [-> _]]. apply String.eqb_refl. }
  simpl.
  unfold generateAccessAndRefreshToken, try_catch, bind, findById, call, throw, ret.
  rewrite !Hans. rewrite (findById_id _ _ Hu), Hu. reflexivity.
Qed.

(** ** Register *)

(** The test of line 39 compares the [trim] method itself with the empty
    string; on a text field, present or not, it is never true. *)
Lemma trim_test_false (k : string) (o : list (string * string)) :
  strict_eq (opt_member (text_field k o) "trim") (str "") = false.
Proof. unfold text_field. destruct (assoc k o); reflexivity. Qed.

Lemma required_fields_guard_dead (req : Request) :
  existsb (fun field => strict_eq (opt_member field "trim") (str ""))
    [text_field "fullName" (body req); text_field "email" (body req);
     text_field "password" (body req); text_field "username" (body req)] = false.
Proof. simpl. now rewrite !trim_test_false. Qed.

(** Every way Register ends: an error before the record is created, which
    leaves the collection as it was and is never the error of line 41; or
    the record created, and then the response of line 87 or the re-fetch of
    line 77 throwing. *)
Lemma register_cases (env : Env) (req : Request) (s s' : Store)
    (out : result Response) :
  registerUser env req s = (out, s') ->
  (s' = s /\ exists e, out = Raise e /\ e <> ApiError 400 "All fields are required")
  \/ (exists d, s' = s ++ [d] /\ lookup "_id" d = fresh_id s /\
        (out = Ok (register_response d)
         \/ exists msg, throws env L77_findById = Some msg /\
                        out = Raise (Error "Error" msg))).
Proof.
  unfold registerUser. rewrite required_fields_guard_dead.
  unfold bind, findOne_or, findById, create, call, throw, ret.
  destruct (throws env L45_findOne);
    [intros H; inv H; left; split; eauto; eexists; split; eauto; discriminate|].
  destruct (Store_findOne_or _ _ s);
    [intros H; inv H; left; split; eauto; eexists; split; eauto; discriminate|].
  unfold avatarLocalPath_of, throw, ret.
  destruct (files req) as [fs|]; simpl;
    [|intros H; inv H; left; split; eauto; eexists; split; eauto; discriminate].
  destruct (assoc "avatar" fs) as [arr|];
    [|intros H; inv H; left; split; eauto; eexists; split; eauto; discriminate].
  destruct (truthy (first_path arr)); simpl;
    [|intros H; inv H; left; split; eauto; eexists; split; eauto; discriminate].
  destruct (throws env L60_uploadOnCloudinary);
    [intros H; inv H; left; split; eauto; eexists; split; eauto; discriminate|].
  destruct (throws env L61_uploadOnCloudinary);
    [intros H; inv H; left; split; eauto; eexists; split; eauto; discriminate|].
  destruct (truthy (uploadOnCloudinary env (first_path arr))); simpl;
    [|intros H; inv H; left; split; eauto; eexists; split; eauto; discriminate].
  unfold call_toLowerCase, throw, ret.
  destruct (text_field "username" (body req)) eqn:Hu;
    try (intros H; inv H; left; split; eauto; eexists; split; eauto; discriminate).
  destruct (throws env L67_create);
    [intros H; inv H; left; split; eauto; eexists; split; eauto; discriminate|].
  match goal with
  | |- context [s ++ [?d]] => set (doc := d)
  end.
  replace (lookup "_id" doc) with (fresh_id s) by reflexivity.
  destruct (throws env L77_findById) as [msg|] eqn:H77.
  - intros H; inv H. right. exists doc. repeat split; eauto.
  - subst doc. rewrite findById_created. simpl.
    intros H; inv H. right. eexists. repeat split; eauto.
Qed.

(** ** Login *)

Lemma findById_rotated (env : Env) (id : value) (u : props) (s : Store) :
  Store_findById id s = Some u ->
  Store_findById id (rotated env u s)
  = Some (set_prop "refreshToken" (str (generateRefreshToken env u)) u).
Proof.
  intros Hu. pose proof (findById_id _ _ Hu) as Hid.
  unfold rotated, Store_save.
  rewrite lookup_set_prop_other by reflexivity. rewrite Hid.
  unfold Store_findById in *. rewrite find_update_first.
  - now rewrite Hu.
  - intros _ _. apply find_some in Hu as [_ Hp].
    unfold id_is in *. rewrite lookup_set_prop_other by reflexivity. exact Hp.
Qed.

(** Every way Login ends: an error before the token is persisted, which
    leaves the collection as it was; or the token persisted, and then the
    response of line 135 or the re-fetch of line 127 throwing. *)
Lemma login_cases (env : Env) (req : Request) (s s' : Store)
    (out : result Response) :
  loginUser env req s = (out, s') ->
  (s' = s /\ exists e, out = Raise e)
  \/ (exists u, Store_findById (lookup "_id" u) s = Some u /\ s' = rotated env u s /\
        (out = Ok (login_response (minted env u)
                     (Some (select_minus ["password"; "refreshToken"]
                              (set_prop "refreshToken"
                                 (str (generateRefreshToken env u)) u))))
         \/ exists msg, throws env L127_findById = Some msg /\
                        out = Raise (Error "Error" msg))).
Proof.
  unfold loginUser.
  destruct (truthy _); simpl; [|unfold throw; intros H; inv H; eauto].
  unfold bind, findOne_or, findById, call, throw, ret.
  destruct (throws env L110_findOne); [intros H; inv H; eauto|].
  destruct (Store_findOne_or _ _ s) as [u|]; [|intros H; inv H; eauto].
  destruct (throws env L118_isPasswordCorrect); [intros H; inv H; eauto|].
  destruct (isPasswordCorrect env u _); simpl; [|intros H; inv H; eauto].
  destruct (generate_cases env (lookup "_id" u) s) as [[u' [Hf Hg]]|Hg];
    rewrite Hg; [|intros H; inv H; eauto].
  pose proof (findById_id _ _ Hf) as Hid.
  right. exists u'. rewrite Hid. split; [exact Hf|]. split.
  - destruct (throws env L127_findById); inv H; reflexivity.
  - destruct (throws env L127_findById) as [msg|].
    + inv H. right. eauto.
    + rewrite (@findById_rotated env _ _ _ Hf) in H. inv H. left. reflexivity.
Qed.

(** In Login a failure of the helper reaches the caller as the helper
    raised it: the 500 error. *)
Lemma login_mint_failure_is_500 (env : Env) (req : Request) (s : Store) (u : props) :
  truthy (js_or (text_field "username" (body req)) (text_field "email" (body req)))
    = true ->
  throws env L110_findOne = None ->
  Store_findOne_or (text_field "username" (body req)) (text_field "email" (body req)) s
    = Some u ->
  throws env L118_isPasswordCorrect = None ->
  isPasswordCorrect env u (text_field "password" (body req)) = true ->
  generateAccessAndRefreshToken env (lookup "_id" u) s = (Raise generate_failed, s) ->
  loginUser env req s = (Raise generate_failed, s).
Proof.
  intros Ht H110 Hu H118 Hpw Hg.
  unfold loginUser. rewrite Ht. simpl.
  unfold bind, findOne_or, call, throw, ret.
  rewrite H110, Hu, H118, Hpw. cbn [negb]. now rewrite Hg.
Qed.

(** Whoever Refresh answers, the answer carries no refresh token: the body
    field and the cookie are both [undefined], since line 208 reads a
    property [newRefreshToken] that the helper's answer does not have. *)
Lemma refresh_returns_no_refresh_token (env : Env) (req : Request) (s s' : Store)
    (r : Response) :
  refreshAccessToken env req s = (Ok r, s') ->
  body_refreshToken r = undefined /\ cookie_value "refreshToken" r = undefined.
Proof.
  intros H. apply refresh_ok in H as [u [_ [_ [_ [_ ->]]]]]. split; reflexivity.
Qed.

(** C1, at a successful Refresh of alice presenting her stored token rt0
    while the helper mints at1 and rt1: the new refresh token rt1 is
    persisted, but the response body and the refreshToken cookie both hold
    [undefined] instead of rt1, so no new refresh token is returned. *)
Theorem refresh_response_lacks_refresh_token :
  exists r s',
    refreshAccessToken (answering "at1" "rt1") (presenting "rt0") store0 = (Ok r, s') /\
    stored_refreshToken (oid 1) s' = str "rt1" /\
    opt_member (data (json r)) "accessToken" = str "at1" /\
    body_refreshToken r = undefined /\
    cookie_value "refreshToken" r = undefined.
Proof.
  do 2 eexists. split; [lazy; reflexivity|]. repeat split; reflexivity.
Qed.

(** Register never raises the error of line 41, whatever the fields. *)
Lemma register_never_rejects_blank_fields (env : Env) (req : Request) (s s' : Store) :
  registerUser env req s <> (Raise (ApiError 400 "All fields are required"), s').
Proof.
  intros H. apply register_cases in H as [[_ [e [He Hne]]]|[d [_ [_ [H|[msg [_ H]]]]]]].
  - inv He. now apply Hne.
  - discriminate.
  - discriminate.
Qed.

(** C2, at two requests with blank required fields: one whose email is
    alice's is rejected as a conflict (409), not as a validation error; one
    whose full name is three spaces is registered, the record created and
    201 answered. *)
Theorem blank_fields_not_rejected :
  registerUser (answering "at1" "rt1")
    (register_with
       [("fullName", "   "); ("email", "alice@x.com"); ("password", ""); ("username", "alice")]
       avatar_upload)
    store0
  = (Raise (ApiError 409 "User already exists"), store0)
  /\ exists r d,
       registerUser (answering "at1" "rt1")
         (register_with
            [("fullName", "   "); ("email", "bob@x.com"); ("password", "pw456"); ("username", "Bob")]
            avatar_upload)
         store0
       = (Ok r, store0 ++ [d])
       /\ status r = 201 /\ lookup "fullName" d = str "   ".
Proof.
  split; [reflexivity|]. do 2 eexists. split; [lazy; reflexivity|].
  split; reflexivity.
Qed.

(** ** Logout and the token it leaves *)

(** With no token stored for the identity a request claims, Refresh is
    rejected as unauthorized and writes nothing. *)
Lemma refresh_rejected_when_cleared (env : Env) (req : Request) (s : Store) :
  stored_refreshToken (claimed_id env req) s = undefined ->
  exists msg, refreshAccessToken env req s = (Raise (ApiError 401 msg), s).
Proof.
  intros Hclear.
  destruct (refreshAccessToken env req s) as [[r|e] s'] eqn:E.
  - apply refresh_ok in E as [u [Ht [Hu [Htok _]]]].
    unfold stored_refreshToken in Hclear. rewrite Hu, Htok in Hclear.
    rewrite Hclear in Ht. discriminate.
  - apply refresh_raise in E as [-> [msg ->]]. eauto.
Qed.

(** Logout writes nothing: the update of line 157 sets only a key whose
    value is [undefined]. *)
Lemma logout_writes_nothing (env : Env) (req : Request) (s : Store) :
  snd (logoutUser env req s) = s.
Proof.
  unfold logoutUser, bind, call, ret.
  destruct (throws env L153_findByIdAndUpdate); reflexivity.
Qed.

(** C3, on alice's session: Logout answers 200 and clears both cookies,
    but the update it sends sets nothing, so the record still holds rt0,
    and the Refresh that presents rt0 afterwards answers 200 and rotates the
    token, where a 401 is due. *)
Theorem logout_leaves_refresh_token :
  logoutUser (answering "at1" "rt1") (logout_of alice) store0
  = (Ok logout_response, store0)
  /\ stored_refreshToken (oid 1) store0 = str "rt0"
  /\ refreshAccessToken (answering "at1" "rt1") (presenting "rt0") store0
     = (Ok (refresh_response (minted (answering "at1" "rt1") alice)),
        [alice_holding "rt1"]).
Proof. repeat split. Qed.

(** ** Rotation and supersession *)

(** A Refresh succeeds only if the presented token is the stored refresh
    token of the identity it claims. *)
Lemma refresh_only_if_stored (env : Env) (req : Request) (s s' : Store) (r : Response) :
  refreshAccessToken env req s = (Ok r, s') ->
  stored_refreshToken (claimed_id env req) s = incomingRefreshToken_of req.
Proof.
  intros H. apply refresh_ok in H as [u [_ [Hu [Htok _]]]].
  unfold stored_refreshToken. now rewrite Hu.
Qed.

(** Once a later Refresh has stored a different token, the superseded one
    is rejected for that identity. *)
Lemma superseded_token_rejected (env : Env) (req : Request) (s : Store) :
  stored_refreshToken (claimed_id env req) s <> incomingRefreshToken_of req ->
  exists msg, refreshAccessToken env req s = (Raise (ApiError 401 msg), s).
Proof.
  intros Hne.
  destruct (refreshAccessToken env req s) as [[r|e] s'] eqn:E.
  - apply refresh_only_if_stored in E. contradiction.
  - apply refresh_raise in E as [-> [msg ->]]. eauto.
Qed.

Lemma stored_is_minted (env : Env) (id : value) (u : props) (s : Store) :
  Store_findById id s = Some u ->
  stored_refreshToken id (rotated env u s) = minted_for env id s.
Proof.
  intros Hu. unfold stored_refreshToken, minted_for.
  rewrite (@findById_rotated env _ _ _ Hu), Hu. apply lookup_set_prop_same.
Qed.



(** ** Failures while minting *)

(** C5, at a Refresh of alice during which [generateRefreshToken] throws:
    the helper raises its 500 error, the catch of line 221 turns it into a
    401 that carries the helper's message; the same failure in Login
    reaches the caller as the 500 error. *)
Theorem refresh_masks_signing_failure :
  refreshAccessToken
    (failing_at is_L12 "secretOrPrivateKey must have a value" (answering "at1" "rt1"))
    (presenting "rt0") store0
  = (Raise (ApiError 401 "Something went wrong while generating refresh and access token"),
     store0)
  /\ loginUser
       (failing_at is_L12 "secretOrPrivateKey must have a value" (answering "at1" "rt1"))
       (login_with [("email", "alice@x.com"); ("password", "pw123")]) store0
     = (Raise (ApiError 500 "Something went wrong while generating refresh and access token"),
        store0).
Proof. split; reflexivity. Qed.

(** ** Atomicity *)

Lemma logout_raise (env : Env) (req : Request) (s s' : Store) (e : exn) :
  logoutUser env req s = (Raise e, s') -> s' = s.
Proof.
  unfold logoutUser, bind, call, ret.
  destruct (throws env L153_findByIdAndUpdate); intros H; now inv H.
Qed.

(** C6 as stated fails: when the re-fetch of line 77 throws, Register ends
    with an error and bob's record stays in the collection. *)
Lemma register_error_keeps_record :
  registerUser (failing_at is_L77 "connection lost" (answering "at1" "rt1"))
    (register_with bob_fields avatar_upload) store0
  = (Raise (Error "Error" "connection lost"), store0 ++ [bob])
  /\ ~ (forall op env req s e s', run op env req s = (Raise e, s') -> s' = s).
Proof.
  split; [reflexivity|].
  intros Hatomic.
  specialize (Hatomic Register
                (failing_at is_L77 "connection lost" (answering "at1" "rt1"))
                (register_with bob_fields avatar_upload) store0
                (Error "Error" "connection lost") (store0 ++ [bob]) eq_refl).
  discriminate.
Qed.

(** C6, amended: an operation that ends with an error leaves the
    collection as it was, unless the error is thrown by the call that reads
    the record back after the write (line 77 in Register, line 127 in
    Login); Refresh and Logout have no such call. *)
Theorem error_before_refetch_writes_nothing (op : Operation) (env : Env)
    (req : Request) (s s' : Store) (e : exn) :
  run op env req s = (Raise e, s') ->
  (forall site, refetch_site op = Some site -> throws env site = None) ->
  s' = s.
Proof.
  destruct op; simpl; intros Hrun Hsite.
  - apply register_cases in Hrun as [[-> _]|[d [_ [_ [H|[msg [H77 _]]]]]]].
    + reflexivity.
    + discriminate.
    + rewrite (Hsite _ eq_refl) in H77. discriminate.
  - apply login_cases in Hrun as [[-> _]|[u [_ [_ [H|[msg [H127 _]]]]]]].
    + reflexivity.
    + discriminate.
    + rewrite (Hsite _ eq_refl) in H127. discriminate.
  - now apply refresh_raise in Hrun as [-> _].
  - now apply logout_raise in Hrun.
Qed.

Lemma error_before_refetch_writes_nothing_witness :
  run Register (answering "at1" "rt1")
    (register_with [("email", "alice@x.com"); ("username", "al")] None) store0
  = (Raise (ApiError 409 "User already exists"),
     snd (run Register (answering "at1" "rt1")
            (register_with [("email", "alice@x.com"); ("username", "al")] None) store0))
  /\ snd (run Register (answering "at1" "rt1")
            (register_with [("email", "alice@x.com"); ("username", "al")] None) store0)
     = store0.
Proof.
  split; [reflexivity|].
  apply (@error_before_refetch_writes_nothing Register (answering "at1" "rt1")
           (register_with [("email", "alice@x.com"); ("username", "al")] None)
           store0 _ (ApiError 409 "User already exists")).
  - reflexivity.
  - intros site _. reflexivity.
Defined.

(** ** Rejections of Login and Register *)

(** C7: a Login whose username or email finds a record but whose password
    the record's check refuses is rejected with status 404, the status also
    raised when no record is found, and not with 401. *)
Theorem wrong_password_is_not_found (env : Env) (req : Request) (s : Store) :
  truthy (js_or (text_field "username" (body req)) (text_field "email" (body req)))
    = true ->
  throws env L110_findOne = None ->
  match Store_findOne_or (text_field "username" (body req))
          (text_field "email" (body req)) s with
  | None => loginUser env req s = (Raise (ApiError 404 "User does not exist"), s)
  | Some u =>
      throws env L118_isPasswordCorrect = None ->
      isPasswordCorrect env u (text_field "password" (body req)) = false ->
      loginUser env req s = (Raise (ApiError 404 "Invalid user credentials"), s)
  end.
Proof.
  intros Ht H110.
  destruct (Store_findOne_or _ _ s) as [u|] eqn:Hu.
  - intros H118 Hpw. unfold loginUser. rewrite Ht. simpl.
    unfold bind, findOne_or, call, throw, ret.
    now rewrite H110, Hu, H118, Hpw.
  - unfold loginUser. rewrite Ht. simpl.
    unfold bind, findOne_or, call, throw, ret.
    now rewrite H110, Hu.
Qed.

Lemma wrong_password_is_not_found_witness :
  loginUser (answering "at1" "rt1")
    (login_with [("email", "alice@x.com"); ("password", "guess")]) store0
  = (Raise (ApiError 404 "Invalid user credentials"), store0).
Proof.
  apply (@wrong_password_is_not_found (answering "at1" "rt1")
           (login_with [("email", "alice@x.com"); ("password", "guess")]) store0);
    reflexivity.
Defined.

(** Where the avatar check of lines 53-64 is reached and the request has no
    [files] at all, or an avatar entry without a usable path, or an avatar
    whose upload answers nothing, Register is rejected with 400. *)
Lemma unresolvable_avatar_is_400 (env : Env) (req : Request) (s : Store) :
  throws env L45_findOne = None ->
  Store_findOne_or (text_field "username" (body req)) (text_field "email" (body req)) s
    = None ->
  (files req = None
   \/ exists fs arr,
        files req = Some fs /\ assoc "avatar" fs = Some arr /\
        (truthy (first_path arr) = false
         \/ (throws env L60_uploadOnCloudinary = None /\
             throws env L61_uploadOnCloudinary = None /\
             truthy (uploadOnCloudinary env (first_path arr)) = false))) ->
  registerUser env req s = (Raise (ApiError 400 "Avatar file is required"), s).
Proof.
  intros H45 Hnone Hav.
  unfold registerUser. rewrite required_fields_guard_dead.
  unfold bind, findOne_or, call, throw, ret. rewrite H45, Hnone.
  unfold avatarLocalPath_of, throw, ret.
  destruct Hav as [->|[fs [arr [-> [-> Hcase]]]]]; [reflexivity|].
  destruct Hcase as [->|[H60 [H61 Hup]]]; [reflexivity|].
  destruct (truthy (first_path arr)); simpl; [|reflexivity].
  now rewrite H60, H61, Hup.
Qed.

(** C8, at two multipart requests that carry no avatar file (one with no
    file at all, one with a cover image only): line 53 indexes the missing
    [avatar] entry and a TypeError is raised, not the 400 error. *)
Theorem missing_avatar_entry_is_type_error :
  registerUser (answering "at1" "rt1") (register_with bob_fields (Some [])) store0
  = (Raise (TypeError "Cannot read properties of undefined (reading '0')"), store0)
  /\ registerUser (answering "at1" "rt1")
       (register_with bob_fields
          (Some [("coverImage", [ {| path := "public/temp/cover.png" |} ])]))
       store0
     = (Raise (TypeError "Cannot read properties of undefined (reading '0')"), store0).
Proof. split; reflexivity. Qed.

(** ** Responses *)

(** C9: the user record in the response of a successful Register, and the
    one under [user] in the response of a successful Login, has neither a
    [password] nor a [refreshToken] field. *)
Theorem returned_user_is_sanitized (env : Env) (req : Request) (s s' : Store)
    (r : Response) :
  (registerUser env req s = (Ok r, s') ->
   exists d, data (json r) = obj d /\
             has_own "password" d = false /\ has_own "refreshToken" d = false)
  /\ (loginUser env req s = (Ok r, s') ->
      exists d, opt_member (data (json r)) "user" = obj d /\
                has_own "password" d = false /\ has_own "refreshToken" d = false).
Proof.
  split; intros H.
  - apply register_cases in H as [[_ [e [He _]]]|[d [_ [_ [H|[msg [_ H]]]]]]];
      try discriminate.
    inv H. eexists. split; [reflexivity|].
    split; apply has_own_filter_out; simpl; auto.
  - apply login_cases in H as [[_ [e He]]|[u [_ [_ [H|[msg [_ H]]]]]]];
      try discriminate.
    inv H. eexists. split; [reflexivity|].
    split; apply has_own_filter_out; simpl; auto.
Qed.

Lemma returned_user_is_sanitized_witness :
  (exists d, data (json (register_response bob)) = obj d /\
             has_own "password" d = false /\ has_own "refreshToken" d = false)
  /\ (exists d,
        opt_member
          (data (json (login_response (minted (answering "at1" "rt1") alice)
                         (Some (select_minus ["password"; "refreshToken"] alice)))))
          "user" = obj d /\
        has_own "password" d = false /\ has_own "refreshToken" d = false).
Proof.
  split.
  - apply (proj1 (@returned_user_is_sanitized (answering "at1" "rt1")
                    (register_with bob_fields avatar_upload) store0 (store0 ++ [bob])
                    (register_response bob))).
    reflexivity.
  - apply (proj2 (@returned_user_is_sanitized (answering "at1" "rt1")
                    (login_with [("email", "alice@x.com"); ("password", "pw123")])
                    store0 [set_prop "refreshToken" (str "rt1") alice]
                    (login_response (minted (answering "at1" "rt1") alice)
                       (Some (select_minus ["password"; "refreshToken"] alice))))).
    reflexivity.
Defined.

(** C10: a successful Register answers with HTTP status 201, while the
    [statusCode] inside the envelope it sends is 200; the two differ. *)
Theorem register_status_mismatch (env : Env) (req : Request) (s s' : Store)
    (r : Response) :
  registerUser env req s = (Ok r, s') ->
  status r = 201 /\ statusCode (json r) = 200 /\ status r <> statusCode (json r).
Proof.
  intros H.
  apply register_cases in H as [[_ [e [He _]]]|[d [_ [_ [H|[msg [_ H]]]]]]];
    try discriminate.
  inv H. simpl. repeat split. discriminate.
Qed.

Lemma register_status_mismatch_witness :
  status (register_response bob) = 201
  /\ statusCode (json (register_response bob)) = 200
  /\ status (register_response bob) <> statusCode (json (register_response bob)).
Proof.
  apply (@register_status_mismatch (answering "at1" "rt1")
           (register_with bob_fields avatar_upload) store0 (store0 ++ [bob])
           (register_response bob)).
  reflexivity.
Defined.

(** * Further properties of the controller *)

(** ** How the collection is written *)

Lemma update_first_const (p : props -> bool) (g : props -> props) (u : props)
    (s : Store) :
  find p s = Some u -> update_first p (fun _ => g u) s = update_first p g s.
Proof.
  induction s as [|d s IH]; simpl; [discriminate|].
  destruct (p d); intros H.
  - now inv H.
  - now rewrite IH.
Qed.

(** Saving a found user with a new token is an update of its
    [refreshToken] field. *)
Lemma rotated_as_update (env : Env) (id : value) (u : props) (s : Store) :
  Store_findById id s = Some u ->
  rotated env u s
  = update_first (id_is id)
      (set_prop "refreshToken" (str (generateRefreshToken env u))) s.
Proof.
  intros Hu. unfold rotated, Store_save.
  rewrite lookup_set_prop_other by reflexivity.
  rewrite (findById_id _ _ Hu).
  now apply update_first_const
    with (g := set_prop "refreshToken" (str (generateRefreshToken env u))).
Qed.

Lemma id_is_set_refreshToken (id : value) (v : value) (d : props) :
  id_is id (set_prop "refreshToken" v d) = id_is id d.
Proof. unfold id_is. now rewrite lookup_set_prop_other by reflexivity. Qed.

Lemma ids_update_first (p : props -> bool) (f : props -> props) (s : Store) :
  (forall d, lookup "_id" (f d) = lookup "_id" d) ->
  ids (update_first p f s) = ids s.
Proof.
  intros Hf. unfold ids. induction s as [|d s IH]; simpl; [reflexivity|].
  destruct (p d); simpl; [now rewrite Hf | now rewrite IH].
Qed.

Lemma field_update_first (p q : props -> bool) (f : props -> props) (k : string)
    (s : Store) :
  (forall d, q (f d) = q d) -> (forall d, lookup k (f d) = lookup k d) ->
  option_map (lookup k) (find q (update_first p f s))
  = option_map (lookup k) (find q s).
Proof.
  intros Hq Hk. induction s as [|d s IH]; simpl; [reflexivity|].
  destruct (p d); simpl.
  - rewrite Hq. destruct (q d); simpl; [now rewrite Hk | reflexivity].
  - destruct (q d); simpl; [reflexivity | exact IH].
Qed.

Lemma find_other_update_first (id id' : value) (f : props -> props) (s : Store) :
  id' <> id ->
  (forall d, lookup "_id" (f d) = lookup "_id" d) ->
  find (id_is id') (update_first (id_is id) f s) = find (id_is id') s.
Proof.
  intros Hne Hf. induction s as [|d s IH]; simpl; [reflexivity|].
  destruct (id_is id d) eqn:E; simpl.
  - unfold id_is in *. rewrite Hf.
    apply strict_eq_true in E. rewrite E.
    destruct (strict_eq id id') eqn:E'; [|reflexivity].
    apply strict_eq_true in E'. congruence.
  - destruct (id_is id' d); [reflexivity | exact IH].
Qed.

(** Login either leaves the collection as it was or saves the found user
    with a new token. *)
Lemma login_store (env : Env) (req : Request) (s : Store) :
  snd (loginUser env req s) = s
  \/ exists u, Store_findById (touched_id Login env req s) s = Some u /\
               snd (loginUser env req s) = rotated env u s.
Proof.
  unfold loginUser, touched_id.
  destruct (truthy _); simpl; [|now left].
  unfold bind, findOne_or, findById, call, throw, ret.
  destruct (throws env L110_findOne); [now left|].
  destruct (Store_findOne_or _ _ s) as [u|]; [|now left].
  destruct (throws env L118_isPasswordCorrect); [now left|].
  destruct (isPasswordCorrect env u _); simpl; [|now left].
  destruct (generate_cases env (lookup "_id" u) s) as [[u' [Hf Hg]]|Hg];
    rewrite Hg; [|now left].
  right. exists u'. split; [exact Hf|].
  destruct (throws env L127_findById); reflexivity.
Qed.

(** What Login, Refresh and Logout do to the collection: nothing, or one
    update of the [refreshToken] field of the record they address. *)
Lemma session_write_shape (op : Operation) (env : Env) (req : Request) (s : Store) :
  op <> Register ->
  snd (run op env req s) = s
  \/ exists v, snd (run op env req s)
               = update_first (id_is (touched_id op env req s))
                   (set_prop "refreshToken" v) s.
Proof.
  intros Hop. destruct op; [contradiction| | |].
  - destruct (login_store env req s) as [H|[u [Hu H]]]; [now left|].
    right. eexists. simpl in *. rewrite H. now apply rotated_as_update.
  - simpl. destruct (refreshAccessToken env req s) as [[r|e] s'] eqn:E; simpl.
    + apply refresh_ok in E as [u [_ [Hu [_ [-> _]]]]].
      right. eexists. now apply rotated_as_update.
    + apply refresh_raise in E as [-> _]. now left.
  - left. apply logout_writes_nothing.
Qed.

(** X3: Login, Refresh and Logout never change a field other than
    [refreshToken]: whatever they answer, every other field of every
    identity's record reads afterwards as it did before. *)
Theorem session_ops_write_only_refreshToken (op : Operation) (env : Env)
    (req : Request) (s : Store) (id : value) (k : string) :
  op <> Register ->
  k <> "refreshToken" ->
  field_of k id (snd (run op env req s)) = field_of k id s.
Proof.
  intros Hop Hk.
  destruct (session_write_shape env req s Hop) as [->|[v ->]]; [reflexivity|].
  unfold field_of, Store_findById.
  pose proof (@field_update_first (id_is (touched_id op env req s)) (id_is id)
                (set_prop "refreshToken" v) k s) as H.
  assert (String.eqb k "refreshToken" = false) as Hkb
    by (now apply String.eqb_neq).
  specialize (H (fun d => id_is_set_refreshToken id v d)
                (fun d => lookup_set_prop_other k "refreshToken" v d Hkb)).
  destruct (find (id_is id) (update_first _ _ s)), (find (id_is id) s);
    simpl in H; congruence.
Qed.

Lemma session_ops_write_only_refreshToken_witness :
  field_of "password" (oid 1)
    (snd (run Login (answering "at1" "rt1")
            (login_with [("email", "alice@x.com"); ("password", "pw123")]) store0))
  = field_of "password" (oid 1) store0.
Proof.
  apply (@session_ops_write_only_refreshToken Login (answering "at1" "rt1")
           (login_with [("email", "alice@x.com"); ("password", "pw123")]) store0
           (oid 1) "password").
  - discriminate.
  - discriminate.
Defined.

Lemma find_app_last_miss {A} (q : A -> bool) (l : list A) (a : A) :
  q a = false -> find q (l ++ [a]) = find q l.
Proof.
  intros Ha. induction l as [|b l IH]; simpl; [now rewrite Ha|].
  destruct (q b); [reflexivity | exact IH].
Qed.

(** X4: an operation touches at most one record: the record of every
    identity other than the one it addresses is found afterwards exactly as
    it was before, whatever the operation answers. *)
Theorem one_record_touched (op : Operation) (env : Env) (req : Request)
    (s : Store) (id' : value) :
  id' <> touched_id op env req s ->
  Store_findById id' (snd (run op env req s)) = Store_findById id' s.
Proof.
  intros Hne. destruct op.
  - simpl in *. destruct (registerUser env req s) as [out s'] eqn:E.
    apply register_cases in E as [[-> _]|[d [-> [Hid _]]]]; [reflexivity|].
    simpl. unfold Store_findById. apply find_app_last_miss.
    unfold id_is. rewrite Hid.
    destruct (strict_eq (fresh_id s) id') eqn:E'; [|reflexivity].
    apply strict_eq_true in E'. congruence.
  - destruct (@session_write_shape Login env req s) as [->|[v ->]];
      [discriminate | reflexivity |].
    apply find_other_update_first; [assumption|].
    intros d. now apply lookup_set_prop_other.
  - destruct (@session_write_shape Refresh env req s) as [->|[v ->]];
      [discriminate | reflexivity |].
    apply find_other_update_first; [assumption|].
    intros d. now apply lookup_set_prop_other.
  - destruct (@session_write_shape Logout env req s) as [->|[v ->]];
      [discriminate | reflexivity |].
    apply find_other_update_first; [assumption|].
    intros d. now apply lookup_set_prop_other.
Qed.

Lemma one_record_touched_witness :
  Store_findById (oid 2)
    (snd (run Refresh (answering "at1" "rt1") (presenting "rt0") store_ab))
  = Store_findById (oid 2) store_ab.
Proof.
  apply (@one_record_touched Refresh (answering "at1" "rt1") (presenting "rt0")
           store_ab (oid 2)).
  discriminate.
Defined.

(** X5: no operation removes or reorders records: the identifiers in the
    collection are afterwards what they were, except that Register may have
    added one, the new record's, at the end. *)
Theorem records_only_added_by_register (op : Operation) (env : Env)
    (req : Request) (s : Store) :
  ids (snd (run op env req s)) = ids s
  \/ (op = Register /\ ids (snd (run op env req s)) = ids s ++ [fresh_id s]).
Proof.
  destruct op.
  - simpl. destruct (registerUser env req s) as [out s'] eqn:E.
    apply register_cases in E as [[-> _]|[d [-> [Hid _]]]]; [now left|].
    right. split; [reflexivity|]. simpl. unfold ids.
    rewrite map_app. simpl. now rewrite Hid.
  - left.
    destruct (@session_write_shape Login env req s) as [->|[v ->]];
      [discriminate | reflexivity |].
    apply ids_update_first. intros d. now apply lookup_set_prop_other.
  - left.
    destruct (@session_write_shape Refresh env req s) as [->|[v ->]];
      [discriminate | reflexivity |].
    apply ids_update_first. intros d. now apply lookup_set_prop_other.
  - left.
    destruct (@session_write_shape Logout env req s) as [->|[v ->]];
      [discriminate | reflexivity |].
    apply ids_update_first. intros d. now apply lookup_set_prop_other.
Qed.

(** ** Logout *)

(** X6: Logout does not check that the identity has a record: when the
    store answers and no record has the identifier of [req.user], Logout
    still answers 200 with both cookies cleared, and writes nothing. *)
Theorem logout_unknown_identity (env : Env) (req : Request) (s : Store) :
  throws env L153_findByIdAndUpdate = None ->
  Store_findById (lookup "_id" (user req)) s = None ->
  logoutUser env req s = (Ok logout_response, s).
Proof.
  intros H153 Hnone.
  unfold logoutUser, bind, call, ret. now rewrite H153.
Qed.

Lemma logout_unknown_identity_witness :
  logoutUser (answering "at1" "rt1") (logout_of bob) store0
  = (Ok logout_response, store0).
Proof.
  apply (@logout_unknown_identity (answering "at1" "rt1") (logout_of bob) store0);
    reflexivity.
Defined.

(** X7: Logout is idempotent: once a Logout has succeeded, a second Logout
    of the same identity leaves the collection as the first one left it,
    whether or not the store answers the second time. *)
Theorem logout_twice (env1 env2 : Env) (req : Request) (s s1 : Store)
    (r : Response) :
  logoutUser env1 req s = (Ok r, s1) ->
  snd (logoutUser env2 req s1) = s1.
Proof.
  intros _. apply logout_writes_nothing.
Qed.

Lemma logout_twice_witness :
  snd (logoutUser (answering "at2" "rt2") (logout_of alice) store0) = store0.
Proof.
  apply (@logout_twice (answering "at1" "rt1") (answering "at2" "rt2")
           (logout_of alice) store0 store0 logout_response).
  reflexivity.
Defined.

(** ** The token helper *)

(** X1: what the helper returns is what it has stored: when
    [generateAccessAndRefreshToken] returns, its answer holds two string
    tokens, the record of the identity holds that refresh token, and no
    record was added or removed. *)
Theorem helper_persists_what_it_returns (env : Env) (id : value) (s s' : Store)
    (tokens : props) :
  generateAccessAndRefreshToken env id s = (Ok tokens, s') ->
  (exists a r, tokens = [("accessToken", str a); ("refreshToken", str r)])
  /\ stored_refreshToken id s' = lookup "refreshToken" tokens
  /\ ids s' = ids s.
Proof.
  intros H.
  destruct (generate_cases env id s) as [[u [Hu Hg]]|Hg]; rewrite Hg in H;
    [|discriminate].
  inv H. split; [unfold minted; eauto|]. split.
  - unfold stored_refreshToken. rewrite (@findById_rotated env _ _ _ Hu).
    simpl. apply lookup_set_prop_same.
  - rewrite (@rotated_as_update env _ _ _ Hu). apply ids_update_first.
    intros d. now apply lookup_set_prop_other.
Qed.

Lemma helper_persists_what_it_returns_witness :
  (exists a r, minted (answering "at1" "rt1") alice
               = [("accessToken", str a); ("refreshToken", str r)])
  /\ stored_refreshToken (oid 1) [set_prop "refreshToken" (str "rt1") alice]
     = lookup "refreshToken" (minted (answering "at1" "rt1") alice)
  /\ ids [set_prop "refreshToken" (str "rt1") alice] = ids store0.
Proof.
  apply (@helper_persists_what_it_returns (answering "at1" "rt1") (oid 1) store0
           [set_prop "refreshToken" (str "rt1") alice]
           (minted (answering "at1" "rt1") alice)).
  reflexivity.
Defined.

(** X2: the helper fails in one way only: whatever goes wrong inside it,
    the caller sees the 500 error of line 19 and the collection is as it
    was; an identifier without a record is one such failure, since line 11
    then calls a method of [null]. *)
Theorem helper_fails_with_500 (env : Env) (id : value) (s s' : Store) (e : exn) :
  (generateAccessAndRefreshToken env id s = (Raise e, s') ->
   e = ApiError 500 "Something went wrong while generating refresh and access token"
   /\ s' = s)
  /\ (Store_findById id s = None ->
      generateAccessAndRefreshToken env id s = (Raise generate_failed, s)).
Proof.
  split.
  - intros H.
    destruct (generate_cases env id s) as [[u [Hu Hg]]|Hg]; rewrite Hg in H;
      [discriminate|].
    inv H. split; reflexivity.
  - intros Hnone.
    destruct (generate_cases env id s) as [[u [Hu Hg]]|Hg]; [congruence|exact Hg].
Qed.

Lemma helper_fails_with_500_witness :
  (ApiError 500 "Something went wrong while generating refresh and access token"
   = ApiError 500 "Something went wrong while generating refresh and access token"
   /\ snd (generateAccessAndRefreshToken
             (failing_at is_L12 "no secret" (answering "at1" "rt1")) (oid 1) store0)
      = store0)
  /\ generateAccessAndRefreshToken (answering "at1" "rt1") (oid 7) store0
     = (Raise generate_failed, store0).
Proof.
  split.
  - apply (proj1 (@helper_fails_with_500
                    (failing_at is_L12 "no secret" (answering "at1" "rt1")) (oid 1)
                    store0 _ _)).
    reflexivity.
  - apply (proj2 (@helper_fails_with_500 (answering "at1" "rt1") (oid 7) store0
                    store0 generate_failed)).
    reflexivity.
Defined.

(** ** Login and the session it opens *)

Lemma login_ok_inv (env : Env) (req : Request) (s s1 : Store) (r : Response) :
  loginUser env req s = (Ok r, s1) ->
  exists u,
    Store_findById (touched_id Login env req s) s = Some u /\
    s1 = rotated env u s /\
    r = login_response (minted env u)
          (Some (select_minus ["password"; "refreshToken"]
                   (set_prop "refreshToken" (str (generateRefreshToken env u)) u))).
Proof.
  unfold loginUser, touched_id.
  destruct (truthy _); simpl; [|unfold throw; discriminate].
  unfold bind, findOne_or, findById, call, throw, ret.
  destruct (throws env L110_findOne); [discriminate|].
  destruct (Store_findOne_or _ _ s) as [u|]; [|discriminate].
  destruct (throws env L118_isPasswordCorrect); [discriminate|].
  destruct (isPasswordCorrect env u _); simpl; [|discriminate].
  destruct (generate_cases env (lookup "_id" u) s) as [[u' [Hf Hg]]|Hg];
    rewrite Hg; [|discriminate].
  destruct (throws env L127_findById); [discriminate|].
  rewrite (@findById_rotated env _ _ _ Hf). simpl.
  intros H. inv H. exists u'. repeat split. exact Hf.
Qed.

Lemma stored_after_rotation (env : Env) (id : value) (u : props) (s : Store) :
  Store_findById id s = Some u ->
  stored_refreshToken id (rotated env u s) = str (generateRefreshToken env u).
Proof.
  intros Hu. unfold stored_refreshToken.
  rewrite (@findById_rotated env _ _ _ Hu). apply lookup_set_prop_same.
Qed.

(** X8: a successful Login hands out the token it stored: the refresh
    token in the response body, the one in the refreshToken cookie and the
    one in the found user's record are the same string, and the access
    token in the body is the one in the accessToken cookie. *)
Theorem login_hands_out_stored_token (env : Env) (req : Request) (s s1 : Store)
    (r : Response) :
  loginUser env req s = (Ok r, s1) ->
  (exists t, body_refreshToken r = str t)
  /\ cookie_value "refreshToken" r = body_refreshToken r
  /\ stored_refreshToken (touched_id Login env req s) s1 = body_refreshToken r
  /\ cookie_value "accessToken" r = opt_member (data (json r)) "accessToken".
Proof.
  intros H. apply login_ok_inv in H as [u [Hu [-> ->]]].
  split; [eexists; reflexivity|]. split; [reflexivity|]. split; [|reflexivity].
  now rewrite stored_after_rotation.
Qed.

Lemma login_hands_out_stored_token_witness :
  let r := login_response (minted (answering "at1" "rt1") alice)
             (Some (select_minus ["password"; "refreshToken"] alice)) in
  (exists t, body_refreshToken r = str t)
  /\ cookie_value "refreshToken" r = body_refreshToken r
  /\ stored_refreshToken (oid 1) [set_prop "refreshToken" (str "rt1") alice]
     = body_refreshToken r
  /\ cookie_value "accessToken" r = opt_member (data (json r)) "accessToken".
Proof.
  apply (@login_hands_out_stored_token (answering "at1" "rt1")
           (login_with [("email", "alice@x.com"); ("password", "pw123")]) store0
           [set_prop "refreshToken" (str "rt1") alice]
           (login_response (minted (answering "at1" "rt1") alice)
              (Some (select_minus ["password"; "refreshToken"] alice)))).
  reflexivity.
Defined.

(** X9: Login composes with Refresh: after a successful Login, a Refresh
    that presents the non-empty refresh token Login returned, verifies to
    the identity that logged in, and meets collaborators that answer,
    succeeds with status 200 and an access token. *)
Theorem refresh_after_login_succeeds (env env2 : Env) (req req2 : Request)
    (s s1 : Store) (r : Response) :
  loginUser env req s = (Ok r, s1) ->
  answers env2 ->
  claimed_id env2 req2 = touched_id Login env req s ->
  incomingRefreshToken_of req2 = body_refreshToken r ->
  truthy (body_refreshToken r) = true ->
  exists r2 s2,
    refreshAccessToken env2 req2 s1 = (Ok r2, s2) /\
    status r2 = 200 /\
    exists a, opt_member (data (json r2)) "accessToken" = str a.
Proof.
  intros H Hans Hid Hin Ht. apply login_ok_inv in H as [u [Hu [-> ->]]].
  pose proof (@findById_rotated env _ _ _ Hu) as Hu'.
  rewrite <- Hid in Hu'. rewrite <- Hin in Ht.
  do 2 eexists. split.
  - apply (@refresh_succeeds env2 req2 _ _ Hans Ht Hu').
    rewrite Hin. apply lookup_set_prop_same.
  - split; [reflexivity|]. eexists. reflexivity.
Qed.

Lemma refresh_after_login_succeeds_witness :
  exists r2 s2,
    refreshAccessToken (answering "at2" "rt2") (presenting "rt1")
      [set_prop "refreshToken" (str "rt1") alice] = (Ok r2, s2) /\
    status r2 = 200 /\
    exists a, opt_member (data (json r2)) "accessToken" = str a.
Proof.
  apply (@refresh_after_login_succeeds (answering "at1" "rt1") (answering "at2" "rt2")
           (login_with [("email", "alice@x.com"); ("password", "pw123")])
           (presenting "rt1") store0
           [set_prop "refreshToken" (str "rt1") alice]
           (login_response (minted (answering "at1" "rt1") alice)
              (Some (select_minus ["password"; "refreshToken"] alice)))).
  - reflexivity.
  - intros site. reflexivity.
  - reflexivity.
  - reflexivity.
  - reflexivity.
Defined.

(** X10: a Login supersedes every earlier token: after a successful Login,
    a Refresh that verifies to the identity that logged in but presents
    anything other than the refresh token this Login returned is rejected
    with 401 and writes nothing. *)
Theorem login_supersedes_other_tokens (env env2 : Env) (req req2 : Request)
    (s s1 : Store) (r : Response) :
  loginUser env req s = (Ok r, s1) ->
  claimed_id env2 req2 = touched_id Login env req s ->
  incomingRefreshToken_of req2 <> body_refreshToken r ->
  exists msg, refreshAccessToken env2 req2 s1 = (Raise (ApiError 401 msg), s1).
Proof.
  intros H Hid Hne. apply login_ok_inv in H as [u [Hu [-> ->]]].
  apply superseded_token_rejected.
  rewrite Hid, stored_after_rotation by exact Hu.
  intros Heq. apply Hne. now rewrite <- Heq.
Qed.

Lemma login_supersedes_other_tokens_witness :
  exists msg,
    refreshAccessToken (answering "at2" "rt2") (presenting "rt0")
      [set_prop "refreshToken" (str "rt1") alice]
    = (Raise (ApiError 401 msg), [set_prop "refreshToken" (str "rt1") alice]).
Proof.
  apply (@login_supersedes_other_tokens (answering "at1" "rt1") (answering "at2" "rt2")
           (login_with [("email", "alice@x.com"); ("password", "pw123")])
           (presenting "rt0") store0
           [set_prop "refreshToken" (str "rt1") alice]
           (login_response (minted (answering "at1" "rt1") alice)
              (Some (select_minus ["password"; "refreshToken"] alice)))).
  - reflexivity.
  - reflexivity.
  - discriminate.
Defined.

(** ** Register and the record it creates *)

Lemma lookup_select_minus (k : string) (excluded : list string) (d : props) :
  existsb (String.eqb k) excluded = false ->
  lookup k (select_minus excluded d) = lookup k d.
Proof.
  intros Hk. induction d as [|[k' v] d IH]; simpl; [reflexivity|].
  destruct (String.eqb k k') eqn:E.
  - apply String.eqb_eq in E. subst k'. rewrite Hk. simpl.
    now rewrite String.eqb_refl.
  - destruct (existsb (String.eqb k') excluded); simpl; [exact IH|].
    now rewrite E.
Qed.


(** What a successful Register has done: the duplicate check found
    nothing, and one record was added at the end, with a new identifier,
    the submitted full name and email, the username as [toLowerCase] gives
    it, and no refresh token. *)
Lemma register_ok_inv (env : Env) (req : Request) (s s1 : Store) (r : Response) :
  registerUser env req s = (Ok r, s1) ->
  exists d u,
    text_field "username" (body req) = str u /\
    Store_findOne_or (text_field "username" (body req))
      (text_field "email" (body req)) s = None /\
    s1 = s ++ [d] /\
    r = register_response d /\
    Store_findById (fresh_id s) s1 = Some d /\
    lookup "_id" d = fresh_id s /\
    lookup "username" d = str (toLowerCase env u) /\
    lookup "email" d = text_field "email" (body req) /\
    lookup "fullName" d = text_field "fullName" (body req) /\
    lookup "refreshToken" d = undefined.
Proof.
  unfold registerUser. rewrite required_fields_guard_dead.
  unfold bind, findOne_or, findById, create, call, throw, ret.
  destruct (throws env L45_findOne); [discriminate|].
  destruct (Store_findOne_or _ _ s) eqn:Hnone; [discriminate|].
  unfold avatarLocalPath_of, throw, ret.
  destruct (files req) as [fs|]; simpl; [|discriminate].
  destruct (assoc "avatar" fs) as [arr|]; [|discriminate].
  destruct (truthy (first_path arr)); simpl; [|discriminate].
  destruct (throws env L60_uploadOnCloudinary); [discriminate|].
  destruct (throws env L61_uploadOnCloudinary); [discriminate|].
  destruct (truthy (uploadOnCloudinary env (first_path arr))); simpl; [|discriminate].
  unfold call_toLowerCase, throw, ret.
  destruct (text_field "username" (body req)) as [| |u| | |] eqn:Hu; try discriminate.
  destruct (throws env L67_create); [discriminate|].
  match goal with
  | |- context [s ++ [?d]] => set (doc := d)
  end.
  replace (lookup "_id" doc) with (fresh_id s) by reflexivity.
  destruct (throws env L77_findById); [discriminate|].
  subst doc. rewrite findById_created. simpl.
  intros H. inv H. do 2 eexists.
  split; [reflexivity|]. split; [reflexivity|]. split; [reflexivity|].
  split; [reflexivity|]. split; [apply findById_created|].
  split; [reflexivity|].
  destruct (text_field "password" (body req)); simpl; repeat split; reflexivity.
Qed.



(** X12: Register opens no session: the record it creates has no refresh
    token, so after a successful Register every Refresh whose token claims
    the identity of the returned record is rejected with 401, until a Login
    stores a token. *)
Theorem register_opens_no_session (env env2 : Env) (req req2 : Request)
    (s s1 : Store) (r : Response) :
  registerUser env req s = (Ok r, s1) ->
  claimed_id env2 req2 = opt_member (data (json r)) "_id" ->
  exists msg, refreshAccessToken env2 req2 s1 = (Raise (ApiError 401 msg), s1).
Proof.
  intros H Hid.
  apply register_ok_inv
    in H as [d [u [_ [_ [Hs1 [-> [Hfind [Hd [_ [_ [_ Htok]]]]]]]]]]].
  apply refresh_rejected_when_cleared.
  rewrite Hid. simpl. rewrite lookup_select_minus by reflexivity.
  unfold stored_refreshToken. rewrite Hd, Hfind. exact Htok.
Qed.

Lemma register_opens_no_session_witness :
  exists msg,
    refreshAccessToken (answering "at1" "rt1") (presenting "rt0")
      [("_id", oid 1) :: tl bob]
    = (Raise (ApiError 401 msg), [("_id", oid 1) :: tl bob]).
Proof.
  apply (@register_opens_no_session (answering "at1" "rt1") (answering "at1" "rt1")
           (register_with bob_fields avatar_upload) (presenting "rt0")
           [] [("_id", oid 1) :: tl bob]
           (register_response (("_id", oid 1) :: tl bob))).
  - reflexivity.
  - reflexivity.
Defined.

(** X13: a second Register is a conflict: after a successful Register, a
    Register that submits the same email, or the username as it was stored
    (what [toLowerCase] gave for the first one), is rejected with 409 when
    the store answers, and adds nothing. *)
Theorem register_again_conflicts (env env2 : Env) (req req2 : Request)
    (s s1 : Store) (r : Response) (u e : string) :
  registerUser env req s = (Ok r, s1) ->
  text_field "username" (body req) = str u ->
  text_field "email" (body req) = str e ->
  text_field "email" (body req2) = str e
  \/ text_field "username" (body req2) = str (toLowerCase env u) ->
  throws env2 L45_findOne = None ->
  registerUser env2 req2 s1 = (Raise (ApiError 409 "User already exists"), s1).
Proof.
  intros H Hu He Hsame H45.
  apply register_ok_inv
    in H as [d [u' [Hu' [_ [-> [_ [_ [_ [Hname [Hmail _]]]]]]]]]].
  rewrite Hu in Hu'. inv Hu'. rewrite He in Hmail.
  unfold registerUser. rewrite required_fields_guard_dead.
  unfold bind, findOne_or, call, throw, ret. rewrite H45.
  destruct (Store_findOne_or (text_field "username" (body req2))
              (text_field "email" (body req2)) (s ++ [d])) eqn:Hfind;
    [reflexivity|].
  exfalso. unfold Store_findOne_or in Hfind.
  assert (In d (s ++ [d])) as Hin by (apply in_or_app; right; now left).
  pose proof (find_none _ _ Hfind d Hin) as Hd. cbv beta in Hd.
  apply orb_false_elim in Hd as [Hd1 Hd2].
  destruct Hsame as [Hs|Hs]; rewrite Hs in *; unfold clause in *.
  - rewrite Hmail in Hd2. simpl in Hd2. now rewrite String.eqb_refl in Hd2.
  - rewrite Hname in Hd1. simpl in Hd1. now rewrite String.eqb_refl in Hd1.
Qed.

Lemma register_again_conflicts_witness :
  registerUser (answering "at2" "rt2")
    (register_with [("email", "bob@x.com"); ("username", "robert")] None)
    (store0 ++ [bob])
  = (Raise (ApiError 409 "User already exists"), store0 ++ [bob]).
Proof.
  apply (@register_again_conflicts (answering "at1" "rt1") (answering "at2" "rt2")
           (register_with bob_fields avatar_upload)
           (register_with [("email", "bob@x.com"); ("username", "robert")] None)
           store0 (store0 ++ [bob]) (register_response bob) "Bob" "bob@x.com").
  - reflexivity.
  - reflexivity.
  - reflexivity.
  - left. reflexivity.
  - reflexivity.
Defined.



(** X17: a Register without a username fails late: when every earlier step
    passes (the duplicate check finds nothing, the avatar has a path and its
    upload yields a response), line 73 calls [toLowerCase] on [undefined];
    a TypeError is raised after both uploads were made, and no record is
    created. *)
Theorem register_without_username (env : Env) (req : Request) (s : Store)
    (fs : list (string * list File)) (f : File) (rest : list File) :
  throws env L45_findOne = None ->
  throws env L60_uploadOnCloudinary = None ->
  throws env L61_uploadOnCloudinary = None ->
  Store_findOne_or (text_field "username" (body req))
    (text_field "email" (body req)) s = None ->
  files req = Some fs ->
  assoc "avatar" fs = Some (f :: rest) ->
  path f <> "" ->
  truthy (uploadOnCloudinary env (str (path f))) = true ->
  text_field "username" (body req) = undefined ->
  registerUser env req s
  = (Raise (TypeError "Cannot read properties of undefined (reading 'toLowerCase')"), s).
Proof.
  intros H45 H60 H61 Hnone Hfs Hav Hp Hup Hu.
  assert (String.eqb (path f) "" = false) as Hpb by (now apply String.eqb_neq).
  unfold registerUser. rewrite required_fields_guard_dead.
  unfold bind, findOne_or, call, throw, ret. rewrite H45, Hnone.
  unfold avatarLocalPath_of, throw, ret. rewrite Hfs, Hav. simpl.
  rewrite Hpb. simpl. rewrite H60, H61, Hup. simpl.
  unfold call_toLowerCase, throw. now rewrite Hu.
Qed.

Lemma register_without_username_witness :
  registerUser (answering "at1" "rt1")
    (register_with [("fullName", "Bob"); ("email", "bob@x.com"); ("password", "pw456")]
       avatar_upload)
    store0
  = (Raise (TypeError "Cannot read properties of undefined (reading 'toLowerCase')"),
     store0).
Proof.
  apply (@register_without_username (answering "at1" "rt1")
           (register_with
              [("fullName", "Bob"); ("email", "bob@x.com"); ("password", "pw456")]
              avatar_upload)
           store0
           [("avatar", [ {| path := "public/temp/bob.png" |} ])]
           {| path := "public/temp/bob.png" |} []);
    try reflexivity.
  discriminate.
Defined.

(** ** Rejections and responses across the four handlers *)

Lemma register_raise_status (env : Env) (req : Request) (s s' : Store)
    (c : nat) (m : string) :
  registerUser env req s = (Raise (ApiError c m), s') -> In c [400; 409; 500].
Proof.
  unfold registerUser. rewrite required_fields_guard_dead.
  unfold bind, findOne_or, findById, create, call, throw, ret.
  destruct (throws env L45_findOne); [discriminate|].
  destruct (Store_findOne_or _ _ s); [intros H; inv H; simpl; auto|].
  unfold avatarLocalPath_of, throw, ret.
  destruct (files req) as [fs|]; simpl; [|intros H; inv H; auto].
  destruct (assoc "avatar" fs) as [arr|]; [|discriminate].
  destruct (truthy (first_path arr)); simpl; [|intros H; inv H; auto].
  destruct (throws env L60_uploadOnCloudinary); [discriminate|].
  destruct (throws env L61_uploadOnCloudinary); [discriminate|].
  destruct (truthy (uploadOnCloudinary env (first_path arr))); simpl;
    [|intros H; inv H; auto].
  unfold call_toLowerCase, throw, ret.
  destruct (text_field "username" (body req)); try discriminate.
  destruct (throws env L67_create); [discriminate|].
  destruct (throws env L77_findById); [discriminate|].
  destruct (Store_findById _ _); simpl; [discriminate|].
  intros H; inv H; simpl; auto.
Qed.

Lemma login_raise_status (env : Env) (req : Request) (s s' : Store)
    (c : nat) (m : string) :
  loginUser env req s = (Raise (ApiError c m), s') -> In c [400; 404; 500].
Proof.
  unfold loginUser.
  destruct (truthy _); simpl; [|unfold throw; intros H; inv H; auto].
  unfold bind, findOne_or, findById, call, throw, ret.
  destruct (throws env L110_findOne); [discriminate|].
  destruct (Store_findOne_or _ _ s) as [u|]; [|intros H; inv H; simpl; auto].
  destruct (throws env L118_isPasswordCorrect); [discriminate|].
  destruct (isPasswordCorrect env u _); simpl; [|intros H; inv H; simpl; auto].
  destruct (generate_cases env (lookup "_id" u) s) as [[u' [Hf Hg]]|Hg];
    rewrite Hg.
  - destruct (throws env L127_findById); discriminate.
  - intros H; inv H; simpl; auto.
Qed.

(** X15: each handler raises only its own statuses: an [ApiError] of
    Register is a 400, 409 or 500, one of Login a 400, 404 or 500 (never a
    401), one of Refresh always a 401, and Logout raises no [ApiError] at
    all (it can only pass on what the store throws). *)
Theorem api_error_statuses (op : Operation) (env : Env) (req : Request)
    (s s' : Store) (c : nat) (m : string) :
  run op env req s = (Raise (ApiError c m), s') ->
  In c (api_statuses op).
Proof.
  destruct op; simpl; intros H.
  - exact (register_raise_status _ _ _ H).
  - exact (login_raise_status _ _ _ H).
  - apply refresh_raise in H as [_ [msg H]]. inv H. now left.
  - unfold logoutUser, bind, call, ret in H.
    destruct (throws env L153_findByIdAndUpdate); discriminate.
Qed.

Lemma api_error_statuses_witness :
  In 404 (api_statuses Login).
Proof.
  apply (@api_error_statuses Login (answering "at1" "rt1")
           (login_with [("email", "alice@x.com"); ("password", "guess")])
           store0 store0 404 "Invalid user credentials").
  reflexivity.
Defined.

(** X16: no handler sets or clears a cookie without protection: in every
    response of the four handlers, each cookie set and each cookie cleared
    is named accessToken or refreshToken and carries the options httpOnly
    and secure. *)
Theorem cookies_are_guarded (op : Operation) (env : Env) (req : Request)
    (s s' : Store) (r : Response) :
  run op env req s = (Ok r, s') ->
  Forall (fun c => In (fst (fst c)) ["accessToken"; "refreshToken"] /\ guarded (snd c))
    (cookies_set r)
  /\ Forall (fun c => In (fst c) ["accessToken"; "refreshToken"] /\ guarded (snd c))
       (cookies_cleared r).
Proof.
  destruct op; simpl; intros H.
  - apply register_ok_inv in H as [d [u [_ [_ [_ [-> _]]]]]].
    split; constructor.
  - apply login_ok_inv in H as [u [_ [_ ->]]].
    split; simpl;
      repeat (apply Forall_cons; [split; [simpl; auto | split; reflexivity]|]);
      apply Forall_nil.
  - apply refresh_ok in H as [u [_ [_ [_ [_ ->]]]]].
    split; simpl;
      repeat (apply Forall_cons; [split; [simpl; auto | split; reflexivity]|]);
      apply Forall_nil.
  - unfold logoutUser, bind, call, ret in H.
    destruct (throws env L153_findByIdAndUpdate); [discriminate|]. inv H.
    split; simpl;
      repeat (apply Forall_cons; [split; [simpl; auto | split; reflexivity]|]);
      apply Forall_nil.
Qed.

Lemma cookies_are_guarded_witness :
  Forall (fun c => In (fst (fst c)) ["accessToken"; "refreshToken"] /\ guarded (snd c))
    (cookies_set (refresh_response (minted (answering "at1" "rt1") alice)))
  /\ Forall (fun c => In (fst c) ["accessToken"; "refreshToken"] /\ guarded (snd c))
       (cookies_cleared (refresh_response (minted (answering "at1" "rt1") alice))).
Proof.
  apply (@cookies_are_guarded Refresh (answering "at1" "rt1") (presenting "rt0")
           store0 [set_prop "refreshToken" (str "rt1") alice]
           (refresh_response (minted (answering "at1" "rt1") alice))).
  reflexivity.
Defined.

(** X18: why Refresh rejected is in the message of its 401.  For a token
    that is present: when verification throws, the message is the
    verifier's, or "Invalid refresh token" if that one is empty; when the
    claimed identity has no record it is "Invalid RefreshToken"; when the
    record's stored token is another one it is "Refresh token is expired or
    used".  Nothing is written in any of these cases. *)
Theorem refresh_rejection_messages (env : Env) (req : Request) (s : Store) :
  truthy (incomingRefreshToken_of req) = true ->
  match throws env L191_verify with
  | Some m =>
      refreshAccessToken env req s
      = (Raise (ApiError 401 (if String.eqb m "" then "Invalid refresh token" else m)), s)
  | None =>
      throws env L193_findById = None ->
      match Store_findById (claimed_id env req) s with
      | None =>
          refreshAccessToken env req s
          = (Raise (ApiError 401 "Invalid RefreshToken"), s)
      | Some u =>
          lookup "refreshToken" u <> incomingRefreshToken_of req ->
          refreshAccessToken env req s
          = (Raise (ApiError 401 "Refresh token is expired or used"), s)
      end
  end.
Proof.
  intros Ht. unfold refreshAccessToken. rewrite Ht. cbn [negb].
  unfold try_catch, bind, findById, call, throw, ret, claimed_id.
  destruct (throws env L191_verify) as [m|]; [reflexivity|].
  intros H193. rewrite H193.
  destruct (Store_findById _ s) as [u|]; [|reflexivity].
  intros Hne.
  destruct (strict_eq (incomingRefreshToken_of req) (lookup "refreshToken" u)) eqn:E.
  - apply strict_eq_true in E. congruence.
  - reflexivity.
Qed.

Lemma refresh_rejection_messages_witness :
  refreshAccessToken (failing_at is_L191 "jwt expired" (answering "at1" "rt1"))
    (presenting "rt0") store0
  = (Raise (ApiError 401 "jwt expired"), store0)
  /\ refreshAccessToken (answering "at1" "rt1") (presenting "rt0") [bob]
     = (Raise (ApiError 401 "Invalid RefreshToken"), [bob])
  /\ refreshAccessToken (answering "at1" "rt1") (presenting "stale") store0
     = (Raise (ApiError 401 "Refresh token is expired or used"), store0).
Proof.
  split; [|split].
  - apply (@refresh_rejection_messages
             (failing_at is_L191 "jwt expired" (answering "at1" "rt1"))
             (presenting "rt0") store0).
    reflexivity.
  - apply (@refresh_rejection_messages (answering "at1" "rt1") (presenting "rt0") [bob]);
      reflexivity.
  - apply (@refresh_rejection_messages (answering "at1" "rt1") (presenting "stale")
             store0); [reflexivity | reflexivity | discriminate].
Defined.

(** ** Refresh: the token it consumes and the token it reads *)

(** X19: a refresh token works once: a successful Refresh leaves in the
    record of the identity the token the helper minted for it during that
    call, and unless that token is the very one that was presented, a later
    Refresh that claims the same identity and presents the old token again
    is rejected with 401 and writes nothing. *)
Theorem refresh_token_is_used_up (env : Env) (req : Request) (s s1 : Store)
    (r : Response) :
  refreshAccessToken env req s = (Ok r, s1) ->
  (exists t, minted_for env (claimed_id env req) s = str t)
  /\ stored_refreshToken (claimed_id env req) s1
     = minted_for env (claimed_id env req) s
  /\ (minted_for env (claimed_id env req) s <> incomingRefreshToken_of req ->
      forall env2 req2,
        claimed_id env2 req2 = claimed_id env req ->
        incomingRefreshToken_of req2 = incomingRefreshToken_of req ->
        exists msg, refreshAccessToken env2 req2 s1 = (Raise (ApiError 401 msg), s1)).
Proof.
  intros H. apply refresh_ok in H as [u [_ [Hu [_ [-> _]]]]].
  pose proof (@stored_is_minted env _ _ _ Hu) as Hst.
  split; [unfold minted_for; rewrite Hu; eauto|]. split; [exact Hst|].
  intros Hnew env2 req2 Hid Hin.
  apply superseded_token_rejected. now rewrite Hid, Hin, Hst.
Qed.

Lemma refresh_token_is_used_up_witness :
  stored_refreshToken (oid 1) [alice_holding "rt1"] = str "rt1"
  /\ exists msg,
       refreshAccessToken (answering "at2" "rt2") (presenting "rt0")
         [alice_holding "rt1"]
       = (Raise (ApiError 401 msg), [alice_holding "rt1"]).
Proof.
  pose proof (@refresh_token_is_used_up (answering "at1" "rt1") (presenting "rt0")
                store0 [alice_holding "rt1"]
                (refresh_response (minted (answering "at1" "rt1") alice)) eq_refl)
    as [_ [Hst Hrej]].
  split; [exact Hst|].
  apply (Hrej ltac:(discriminate) (answering "at2" "rt2") (presenting "rt0"));
    reflexivity.
Defined.

(** X20: the body token is read only when the cookie is absent or empty: a
    request with a non-empty refreshToken cookie is decided by the cookie
    alone, and Refresh answers it as it answers the same request without a
    body. *)
Theorem cookie_decides_refresh (env : Env) (req : Request) (s : Store) :
  truthy (text_field "refreshToken" (cookies req)) = true ->
  refreshAccessToken env req s = refreshAccessToken env (without_body req) s.
Proof.
  intros Hc.
  assert (incomingRefreshToken_of (without_body req) = incomingRefreshToken_of req)
    as Hsame.
  { unfold incomingRefreshToken_of, js_or, without_body. simpl. now rewrite Hc. }
  unfold refreshAccessToken. now rewrite Hsame.
Qed.

Lemma cookie_decides_refresh_witness :
  refreshAccessToken (answering "at1" "rt1") (presenting_both "stale" "rt0") store0
  = refreshAccessToken (answering "at1" "rt1")
      (without_body (presenting_both "stale" "rt0")) store0.
Proof.
  apply (@cookie_decides_refresh (answering "at1" "rt1")
           (presenting_both "stale" "rt0") store0).
  reflexivity.
Defined.
